(** * A shallow embedding of [bank_system.py]

    The loan service keeps one JSON document on disk and answers four
    requests: [lend_money], [make_payment], [get_ledger] and
    [get_account_overview].  Every amount is a Python [float], that is an
    IEEE-754 binary64 number, so the embedding computes with the
    specification floats of the standard library at precision 53 and
    maximal exponent 1024 (round to nearest, ties to even).  Python [int]
    is [Z], [dict] is [gmap], [list] is [list], and a raised exception is
    the left injection of a sum. *)

From Stdlib Require Import ZArith Bool List String Lia.
From Stdlib Require Import Floats.SpecFloat.
From stdpp Require Import gmap strings pretty list list_numbers sorting fin_maps.

Local Open Scope Z_scope.

(** ** Python exceptions *)

Inductive exception :=
| TypeError
| ValueError
| OverflowError
| ZeroDivisionError.

Definition exn (A : Type) : Type := exception + A.

Definition exn_bind {A B} (m : exn A) (k : A -> exn B) : exn B :=
  match m with
  | inl e => inl e
  | inr a => k a
  end.

(** ** Python floats *)

Module PyFloat.

Definition prec : Z := 53.
Definition emax : Z := 1024.

Abbreviation float := spec_float.

Definition zero : float := S754_zero false.

Definition add : float -> float -> float := SFadd prec emax.
Definition sub : float -> float -> float := SFsub prec emax.
Definition mul : float -> float -> float := SFmul prec emax.
Definition div : float -> float -> float := SFdiv prec emax.

Definition is_zero (x : float) : bool :=
  match x with
  | S754_zero _ => true
  | _ => false
  end.

(** [x / y] on floats raises [ZeroDivisionError] on a zero divisor. *)
Definition truediv (x y : float) : exn float :=
  if is_zero y then inl ZeroDivisionError else inr (div x y).

Definition ltb : float -> float -> bool := SFltb.
Definition leb : float -> float -> bool := SFleb.
Definition eqb : float -> float -> bool := SFeqb.

(** Conversion of an [int] operand in mixed arithmetic: correctly
    rounded, [OverflowError] when the integer is too large. *)
Definition of_int (z : Z) : exn float :=
  match binary_normalize prec emax z 0 false with
  | S754_infinity _ => inl OverflowError
  | f => inr f
  end.

(** The binary64 number nearest to the rational [n / d], for [d > 0];
    this is what a decimal literal such as [0.1] denotes ([of_ratio 1 10]). *)
Definition of_ratio (n d : Z) : float :=
  match n, d with
  | Zpos pn, Zpos pd => div (S754_finite false pn 0) (S754_finite false pd 0)
  | Zneg pn, Zpos pd => div (S754_finite true pn 0) (S754_finite false pd 0)
  | Z0, Zpos _ => zero
  | _, _ => S754_nan
  end.

(** Nearest integer to [a / b], ties to the even one ([0 <= a], [0 < b]). *)
Definition div_half_even (a b : Z) : Z :=
  let q := a / b in
  let r := a mod b in
  match 2 * r ?= b with
  | Lt => q
  | Gt => q + 1
  | Eq => if Z.even q then q else q + 1
  end.

(** The magnitude of a finite float, in hundredths, rounded half to even:
    the digits that the decimal conversion of [round(x, 2)] produces. *)
Definition hundredths (m : positive) (e : Z) : Z :=
  div_half_even (100 * Zpos m * 2 ^ Z.max e 0) (2 ^ Z.max (- e) 0).

(** [round(x, 2)]: the exact value of [x] is rounded to two decimals
    (half to even) and the decimal result is read back as the nearest
    float; the sign is kept, and infinities and NaN round to themselves. *)
Definition round2 (x : float) : float :=
  match x with
  | S754_finite s m e =>
      match hundredths m e with
      | Zpos n => div (S754_finite s n 0) (S754_finite false 100 0)
      | _ => S754_zero s
      end
  | _ => x
  end.

(** [math.ceil(x)]: an [int]; NaN and the infinities raise. *)
Definition ceil (x : float) : exn Z :=
  match x with
  | S754_nan => inl ValueError
  | S754_infinity _ => inl OverflowError
  | S754_zero _ => inr 0
  | S754_finite s m e =>
      let num := cond_Zopp s (Zpos m * 2 ^ Z.max e 0) in
      let den := 2 ^ Z.max (- e) 0 in
      inr (- ((- num) / den))
  end.

(** The float that the decimal literal [n]e-[k] denotes. *)
Definition dec (n : Z) (k : nat) : float := of_ratio n (10 ^ Z.of_nat k).

(** [sum(xs)]: from the left, starting at [0]. *)
Definition sum (xs : list float) : float := fold_left add xs zero.

End PyFloat.

Abbreviation float := PyFloat.float.

(** [float(v)] and [int(v)] on a request field: the value of a present
    field, [TypeError] on [None] (the field is missing from the body). *)
Definition py_float (v : option float) : exn float :=
  match v with
  | Some x => inr x
  | None => inl TypeError
  end.

Definition py_int (v : option Z) : exn Z :=
  match v with
  | Some n => inr n
  | None => inl TypeError
  end.

(** Truth value of a request field holding a string: [None] and the
    empty string are false. *)
Definition truthy (v : option string) : bool :=
  match v with
  | Some s => negb (String.eqb s "")
  | None => false
  end.

(** [str(n)] on an [int]: the decimal numeral. *)
Definition str (n : Z) : string := pretty n.

(** ** The persisted data *)

Record Payment := {
  amount : float;
  date : string
}.

Record Loan := {
  customer_id : string;
  principal : float;
  years : Z;
  rate : float;
  total_interest : float;
  total_amount : float;
  emi_amount : float;
  payments : list Payment
}.

Record Customer := {
  loan_ids : list string
}.

Record Dataset := {
  loans : gmap string Loan;
  customers : gmap string Customer;
  next_loan_id : Z
}.

(** The data file is either absent or holds one dataset. *)
Abbreviation file := (option Dataset).

(** ** Requests and responses *)

(** Request bodies, typed as the handlers' docstrings give them; a field
    that is missing from the body is [None]. *)
Record LendRequest := {
  lend_customer_id : option string;
  lend_amount : option float;
  lend_years : option Z;
  lend_rate : option float
}.

Record PaymentRequest := {
  pay_loan_id : option string;
  pay_amount : option float
}.

(** What [get_loan_details] returns for a loan. *)
Record Details := {
  d_principal : float;
  d_total_amount : float;
  d_emi_amount : float;
  d_total_interest : float;
  d_amount_paid : float;
  d_balance_amount : float;
  d_emis_left : Z
}.

Record LoanSummary := {
  s_loan_id : string;
  s_principal_amount : float;
  s_total_amount : float;
  s_emi_amount : float;
  s_total_interest : float;
  s_amount_paid_till_date : float;
  s_emis_left : Z
}.

(** JSON bodies of the responses. *)
Inductive body :=
| Error (error : string)
| Message (message : string)
| LoanApproved (loan_id message : string) (total_amount_to_pay monthly_emi : float)
| PaymentRecorded (message loan_id : string) (amount_paid : float)
| Ledger (loan_id customer_id : string) (balance_amount monthly_emi : float)
    (emis_left : Z) (transactions : list Payment)
| Overview (customer_id : string) (loans : list LoanSummary).

(** A response is a body with its status code. *)
Definition response : Type := body * Z.

(** ** Handlers: the data file as state, exceptions as failure *)

Definition handler (A : Type) : Type := file -> exn A * file.

Definition ret {A} (a : A) : handler A := fun f => (inr a, f).

Definition lift {A} (m : exn A) : handler A := fun f => (m, f).

Definition bind {A B} (m : handler A) (k : A -> handler B) : handler B :=
  fun f =>
    match m f with
    | (inl e, f') => (inl e, f')
    | (inr a, f') => k a f'
    end.

Notation "'do' x <- m ; k" := (bind m (fun x => k))
  (at level 10, x name, m at level 100, k at level 200).
Notation "'try' x <- m ; k" := (exn_bind m (fun x => k))
  (at level 10, x name, m at level 100, k at level 200).

(** ** Data persistence *)

Definition empty_data : Dataset :=
  {| loans := ∅; customers := ∅; next_loan_id := 1 |}.

Definition load_data : handler Dataset :=
  fun f =>
    match f with
    | None => (inr empty_data, f)
    | Some data => (inr data, f)
    end.

Definition save_data (data : Dataset) : handler unit :=
  fun _ => (inr tt, Some data).

(** ** Core helper *)

Definition get_loan_details (loan_id : string) (data : Dataset) : exn (option Details) :=
  match loans data !! loan_id with
  | None => inr None
  | Some loan =>
      let amount_paid := PyFloat.sum (map amount (payments loan)) in
      let balance_amount := PyFloat.sub (total_amount loan) amount_paid in
      try emis_left <-
        (if PyFloat.ltb PyFloat.zero (emi_amount loan)
         then try q <- PyFloat.truediv balance_amount (emi_amount loan);
              PyFloat.ceil q
         else inr 0);
      inr (Some {| d_principal := principal loan;
                   d_total_amount := total_amount loan;
                   d_emi_amount := emi_amount loan;
                   d_total_interest := total_interest loan;
                   d_amount_paid := PyFloat.round2 amount_paid;
                   d_balance_amount := PyFloat.round2 balance_amount;
                   d_emis_left := Z.max 0 emis_left |})
  end.

(** ** Endpoints *)

Definition hundred : float := PyFloat.of_ratio 100 1.

(** [data['customers'][customer_id]['loan_ids'].append(loan_id)], after the
    customer record was created when absent. *)
Definition register_loan (customer_id loan_id : string)
    (cs : gmap string Customer) : gmap string Customer :=
  let cs :=
    match cs !! customer_id with
    | None => <[customer_id := {| loan_ids := [] |}]> cs
    | Some _ => cs
    end in
  alter (fun c => {| loan_ids := loan_ids c ++ [loan_id] |}) customer_id cs.

Definition lend_money (req : LendRequest) : handler response :=
  let customer_id := lend_customer_id req in
  do principal <- lift (py_float (lend_amount req));
  do years <- lift (py_int (lend_years req));
  do rate <- lift (try r <- py_float (lend_rate req); PyFloat.truediv r hundred);
  if negb (truthy customer_id && PyFloat.ltb PyFloat.zero principal
           && (0 <? years) && PyFloat.ltb PyFloat.zero rate)
  then ret (Error "Invalid or missing parameters.", 400)
  else
    let customer_id := default "" customer_id in
    do interest <- lift (try y <- PyFloat.of_int years;
                         inr (PyFloat.mul (PyFloat.mul principal y) rate));
    let total := PyFloat.add principal interest in
    do emi <- lift (try m <- PyFloat.of_int (years * 12);
                    PyFloat.truediv total m);
    do data <- load_data;
    let loan_id := str (next_loan_id data) in
    let new_loan :=
      {| customer_id := customer_id;
         principal := principal;
         years := years;
         rate := rate;
         total_interest := PyFloat.round2 interest;
         total_amount := PyFloat.round2 total;
         emi_amount := PyFloat.round2 emi;
         payments := [] |} in
    let data :=
      {| loans := <[loan_id := new_loan]> (loans data);
         customers := register_loan customer_id loan_id (customers data);
         next_loan_id := next_loan_id data + 1 |} in
    do _ <- save_data data;
    ret (LoanApproved loan_id "Loan approved successfully."
           (total_amount new_loan) (emi_amount new_loan), 201).

Definition add_payment (loan : Loan) (payment_record : Payment) : Loan :=
  {| customer_id := customer_id loan;
     principal := principal loan;
     years := years loan;
     rate := rate loan;
     total_interest := total_interest loan;
     total_amount := total_amount loan;
     emi_amount := emi_amount loan;
     payments := payments loan ++ [payment_record] |}.

(** [now] is the text of [datetime.utcnow().isoformat()] when the request
    is served. *)
Definition make_payment (req : PaymentRequest) (now : string) : handler response :=
  let loan_id := pay_loan_id req in
  do amount <- lift (py_float (pay_amount req));
  if negb (truthy loan_id) || PyFloat.leb amount PyFloat.zero
  then ret (Error "Loan ID and a positive amount are required.", 400)
  else
    let loan_id := default "" loan_id in
    do data <- load_data;
    match loans data !! loan_id with
    | None => ret (Error "Loan not found.", 404)
    | Some loan =>
        do details <- lift (get_loan_details loan_id data);
        match details with
        | None => ret (Error "Loan not found.", 404)
        | Some details =>
            if PyFloat.leb (d_balance_amount details) PyFloat.zero
            then ret (Message "This loan is already fully paid.", 200)
            else
              let amount :=
                if PyFloat.ltb (d_balance_amount details) amount
                then d_balance_amount details
                else amount in
              let payment_record :=
                {| amount := PyFloat.round2 amount; date := now |} in
              let data :=
                {| loans := <[loan_id := add_payment loan payment_record]> (loans data);
                   customers := customers data;
                   next_loan_id := next_loan_id data |} in
              do _ <- save_data data;
              ret (PaymentRecorded "Payment recorded successfully." loan_id amount, 200)
        end
    end.

Definition get_ledger (loan_id : string) : handler response :=
  do data <- load_data;
  match loans data !! loan_id with
  | None => ret (Error "Loan not found.", 404)
  | Some loan =>
      do details <- lift (get_loan_details loan_id data);
      match details with
      | None => ret (Error "Loan not found.", 404)
      | Some details =>
          ret (Ledger loan_id (customer_id loan) (d_balance_amount details)
                 (d_emi_amount details) (d_emis_left details) (payments loan), 200)
      end
  end.

Definition loan_summary (loan_id : string) (details : Details) : LoanSummary :=
  {| s_loan_id := loan_id;
     s_principal_amount := d_principal details;
     s_total_amount := d_total_amount details;
     s_emi_amount := d_emi_amount details;
     s_total_interest := d_total_interest details;
     s_amount_paid_till_date := d_amount_paid details;
     s_emis_left := d_emis_left details |}.

(** The loop of [get_account_overview] over the customer's loan ids,
    with [overview_list] as accumulator. *)
Fixpoint overview_loop (data : Dataset) (customer_loans : list string)
    (overview_list : list LoanSummary) : exn (list LoanSummary) :=
  match customer_loans with
  | [] => inr overview_list
  | loan_id :: rest =>
      try details <- get_loan_details loan_id data;
      match details with
      | Some details =>
          overview_loop data rest (overview_list ++ [loan_summary loan_id details])
      | None => overview_loop data rest overview_list
      end
  end.

Definition get_account_overview (customer_id : string) : handler response :=
  do data <- load_data;
  match customers data !! customer_id with
  | None => ret (Error "Customer not found.", 404)
  | Some customer =>
      do overview_list <- lift (overview_loop data (loan_ids customer) []);
      ret (Overview customer_id overview_list, 200)
  end.

(** ** The service as a whole *)

Inductive request :=
| PostLend (req : LendRequest)
| PostPayment (req : PaymentRequest) (now : string)
| GetLedger (loan_id : string)
| GetOverview (customer_id : string).

Definition serve (r : request) : handler response :=
  match r with
  | PostLend req => lend_money req
  | PostPayment req now => make_payment req now
  | GetLedger loan_id => get_ledger loan_id
  | GetOverview customer_id => get_account_overview customer_id
  end.

(** Serving a sequence of requests, one after the other, from a given
    state of the data file: the answers in order, and the final file. *)
Fixpoint run (rs : list request) (f : file) : list (exn response) * file :=
  match rs with
  | [] => ([], f)
  | r :: rs =>
      let '(a, f') := serve r f in
      let '(answers, f'') := run rs f' in
      (a :: answers, f'')
  end.

(** The dataset a handler sees in a given state of the file. *)
Definition dataset_of (f : file) : Dataset := default empty_data f.

(** * Notions used in the statements *)

(** [has_sign s x]: the float [x] carries the sign bit [s] (NaN has none). *)
Definition has_sign (s : bool) (x : float) : Prop :=
  match x with
  | S754_zero s' | S754_infinity s' | S754_finite s' _ _ => s' = s
  | S754_nan => True
  end.

(** A [lend] request with every field present, and a [payment] request
    likewise. *)
Definition lend (customer_id : string) (amount : float) (years : Z) (rate : float)
    : LendRequest :=
  {| lend_customer_id := Some customer_id;
     lend_amount := Some amount;
     lend_years := Some years;
     lend_rate := Some rate |}.

Definition pay (loan_id : string) (amount : float) : PaymentRequest :=
  {| pay_loan_id := Some loan_id; pay_amount := Some amount |}.

(** The loan that [lend_money] builds from the values it computed. *)
Definition new_loan (customer_id : string) (principal : float) (years : Z)
    (rate interest total emi : float) : Loan :=
  {| customer_id := customer_id;
     principal := principal;
     years := years;
     rate := rate;
     total_interest := PyFloat.round2 interest;
     total_amount := PyFloat.round2 total;
     emi_amount := PyFloat.round2 emi;
     payments := [] |}.

(** The time stamps used in the examples. *)
Definition t1 : string := "2024-01-01T09:00:00".
Definition t2 : string := "2024-02-01T09:00:00".

(** The dataset after [payment_record] was appended to the payments of
    [loan], stored under [loan_id]. *)
Definition with_payment (data : Dataset) (loan_id : string) (loan : Loan)
    (payment_record : Payment) : Dataset :=
  {| loans := <[loan_id := add_payment loan payment_record]> (loans data);
     customers := customers data;
     next_loan_id := next_loan_id data |}.

(** The file after a sequence of requests was served on a fresh system. *)
Definition after (rs : list request) : file := snd (run rs None).

(** The loan id that an answer hands out, if it approves a loan. *)
Definition approved (a : exn response) : option string :=
  match a with
  | inr (LoanApproved loan_id _ _ _, _) => Some loan_id
  | _ => None
  end.

(** The loan ids handed out by a sequence of answers, in order. *)
Definition issued (answers : list (exn response)) : list string :=
  omap approved answers.

(** Two loan records with the same terms: everything but the payments. *)
Definition same_terms (l l' : Loan) : Prop :=
  customer_id l' = customer_id l /\
  principal l' = principal l /\
  years l' = years l /\
  rate l' = rate l /\
  total_interest l' = total_interest l /\
  total_amount l' = total_amount l /\
  emi_amount l' = emi_amount l.

(** The invariant of the datasets that the service builds: loans are
    numbered below the counter, every loan is listed by its customer, every
    listed id is a loan of that customer, and each list holds increasing
    loan numbers. *)
Record consistent (d : Dataset) : Prop := {
  counter_positive : 1 <= next_loan_id d;
  loans_numbered : forall id loan,
    loans d !! id = Some loan -> exists n, id = str n /\ 1 <= n < next_loan_id d;
  loans_owned : forall id loan,
    loans d !! id = Some loan ->
    exists c, customers d !! customer_id loan = Some c /\ id ∈ loan_ids c;
  listed_loans : forall cid c id,
    customers d !! cid = Some c -> id ∈ loan_ids c ->
    exists loan, loans d !! id = Some loan /\ customer_id loan = cid;
  listed_in_order : forall cid c,
    customers d !! cid = Some c ->
    exists ns, loan_ids c = str <$> ns /\ StronglySorted Z.lt ns
}.

(** The dataset that a successful [lend_money] saves. *)
Definition with_loan (data : Dataset) (loan : Loan) : Dataset :=
  let loan_id := str (next_loan_id data) in
  {| loans := <[loan_id := loan]> (loans data);
     customers := register_loan (customer_id loan) loan_id (customers data);
     next_loan_id := next_loan_id data + 1 |}.

(** A summary that is the ledger's view of the loan it names. *)
Definition summary_of (data : Dataset) (s : LoanSummary) : Prop :=
  exists det,
    get_loan_details (s_loan_id s) data = inr (Some det) /\
    s = loan_summary (s_loan_id s) det.

(** The values that [lend_money] computes from an accepted request, and
    the loan it stores for them. *)
Definition originated_loan (customer_id : string) (principal : float) (years : Z)
    (rate_percent yf y12 : float) : Loan :=
  let rate := PyFloat.div rate_percent hundred in
  let interest := PyFloat.mul (PyFloat.mul principal yf) rate in
  let total := PyFloat.add principal interest in
  new_loan customer_id principal years rate interest total (PyFloat.div total y12).

(** A request passes the validation of [lend_money] and its arithmetic
    does not overflow: [yf] and [y12] are [years] and [years * 12] as floats. *)
Definition accepted (customer_id : string) (principal : float) (years : Z)
    (rate_percent yf y12 : float) : Prop :=
  customer_id <> "" /\
  PyFloat.ltb PyFloat.zero principal = true /\
  0 < years /\
  PyFloat.ltb PyFloat.zero (PyFloat.div rate_percent hundred) = true /\
  PyFloat.of_int years = inr yf /\
  PyFloat.of_int (years * 12) = inr y12.

(** A loan record whose stored terms follow from its own principal, years
    and rate by the formulas of [lend_money]. *)
Definition terms_consistent (l : Loan) : Prop :=
  exists yf y12,
    PyFloat.of_int (years l) = inr yf /\
    PyFloat.of_int (years l * 12) = inr y12 /\
    customer_id l <> "" /\
    PyFloat.ltb PyFloat.zero (principal l) = true /\
    0 < years l /\
    PyFloat.ltb PyFloat.zero (rate l) = true /\
    let interest := PyFloat.mul (PyFloat.mul (principal l) yf) (rate l) in
    let total := PyFloat.add (principal l) interest in
    total_interest l = PyFloat.round2 interest /\
    total_amount l = PyFloat.round2 total /\
    emi_amount l = PyFloat.round2 (PyFloat.div total y12).

(** An answer that reports a failure: an exception, or a status of 400 or more. *)
Definition failed (a : exn response) : Prop :=
  match a with
  | inl _ => True
  | inr (_, status) => 400 <= status
  end.

(** The loan id and the amount that an answer reports as recorded, if it
    confirms a payment. *)
Definition recorded (a : exn response) : option (string * float) :=
  match a with
  | inr (PaymentRecorded _ loan_id amount_paid, _) => Some (loan_id, amount_paid)
  | _ => None
  end.

(** ** The exact value of a float

    Every finite binary64 number is an integer multiple of [2^-1074];
    [val x] is that integer, so that arithmetic on values is exact
    arithmetic on [Z]. *)
Definition scale : Z := 2 ^ 1074.

Definition val (x : float) : Z :=
  match x with
  | S754_finite s m e => cond_Zopp s (Zpos m * 2 ^ (e + 1074))
  | _ => 0
  end.

(** A zero, or a finite number with at most 53 bits of mantissa and an
    exponent in range. *)
Definition valid (x : float) : Prop :=
  match x with
  | S754_zero _ => True
  | S754_finite _ m e => -1074 <= e /\ Zpos m < 2 ^ 53
  | _ => False
  end.

(** A shifted mantissa with its round and sticky bits, for the number
    [X / (2 * H)] after [k] shifts: the mantissa is the integer part of
    [X / (2 * H * 2^k)], the round bit says whether the remainder reaches
    half of that unit, the sticky bit whether anything remains below the
    half. *)
Definition half_rep (H X k : Z) (mrs : shr_record) : Prop :=
  shr_m mrs = X / (2 * (H * 2 ^ k)) /\
  (shr_r mrs = true <-> H * 2 ^ k <= X mod (2 * (H * 2 ^ k))) /\
  (shr_s mrs = true <-> X mod (H * 2 ^ k) <> 0).

(** [near x c n]: the float [x] stands for the amount of [c] hundredths,
    off it by at most [n] parts in [2^53] of a hundredth. *)
Definition near (x : float) (c n : Z) : Prop :=
  valid x /\ Z.abs (100 * val x - c * scale) * 2 ^ 53 <= n * scale.

(** The sum of a list of amounts given in hundredths. *)
Definition total_cents (ks : list Z) : Z := foldr Z.add 0 ks.

(** * Facts about the float layer *)

(** Closed statements are settled by evaluation, one conjunct at a time. *)
Ltac compute_each :=
  lazymatch goal with
  | |- _ /\ _ => split; [vm_compute; reflexivity | compute_each]
  | |- _ => vm_compute; reflexivity
  end.

Section FloatOrder.

Lemma ltb_zero_not_leb (x : float) :
  PyFloat.ltb PyFloat.zero x = true -> PyFloat.leb x PyFloat.zero = false.
Proof. by destruct x as [s|[]| |[] m e]. Qed.

Lemma ltb_zero_not_is_zero (x : float) :
  PyFloat.ltb PyFloat.zero x = true -> PyFloat.is_zero x = false.
Proof. by destruct x. Qed.

Lemma ltb_zero_trans (b a : float) :
  PyFloat.ltb PyFloat.zero b = true -> PyFloat.ltb b a = true ->
  PyFloat.ltb PyFloat.zero a = true.
Proof.
  destruct b as [s|[]| |[] m e]; try done;
    destruct a as [s'|[]| |[] m' e']; done.
Qed.

Lemma leb_zero_cases (x : float) :
  PyFloat.leb x PyFloat.zero = true ->
  (exists s, x = S754_zero s) \/ x = S754_infinity true \/
  (exists m e, x = S754_finite true m e).
Proof. destruct x as [s|[]| |[] m e]; try done; eauto. Qed.

Lemma ltb_zero_cases (x : float) :
  PyFloat.ltb PyFloat.zero x = true ->
  x = S754_infinity false \/ (exists m e, x = S754_finite false m e).
Proof. destruct x as [s|[]| |[] m e]; try done; eauto. Qed.

End FloatOrder.

Lemma binary_round_aux_sign s mx ex lx :
  has_sign s (binary_round_aux PyFloat.prec PyFloat.emax s mx ex lx).
Proof.
  unfold binary_round_aux.
  destruct (shr_fexp _ _ mx ex lx) as [mrs' e'].
  destruct (shr_fexp _ _ _ e' loc_Exact) as [mrs'' e''].
  destruct (shr_m mrs''); [done| |done].
  by destruct (_ <=? _).
Qed.

Lemma div_sign (x y : float) :
  PyFloat.leb x PyFloat.zero = true -> PyFloat.ltb PyFloat.zero y = true ->
  has_sign true (PyFloat.div x y) \/ exists s, PyFloat.div x y = S754_zero s.
Proof.
  intros Hx Hy.
  destruct (leb_zero_cases x Hx) as [[s ->]|[->|(m & e & ->)]];
    destruct (ltb_zero_cases y Hy) as [->|(m' & e' & ->)]; simpl; eauto.
  left. unfold PyFloat.div, SFdiv.
  destruct (SFdiv_core_binary _ _ _ _ _ _) as [[mz ez] lz].
  apply binary_round_aux_sign.
Qed.

Lemma ceil_nonpos (x : float) (n : Z) :
  has_sign true x \/ (exists s, x = S754_zero s) ->
  PyFloat.ceil x = inr n -> n <= 0.
Proof.
  intros [Hs|[s ->]]; [|by intros [= <-]].
  destruct x as [s|s| |s m e]; simpl in *; try done.
  - by intros [= <-].
  - subst s. intros [= <-]. simpl.
    rewrite Z.opp_involutive.
    assert (0 <= Z.pos m * 2 ^ Z.max e 0 / 2 ^ Z.max (- e) 0); [|lia].
    apply Z.div_pos; [|apply Z.pow_pos_nonneg; lia].
    apply Z.mul_nonneg_nonneg; [lia|apply Z.pow_nonneg; lia].
Qed.

(** Shifting a mantissa to the right never loses its leading bit, so a
    positive integer never rounds to zero. *)

Lemma shr_1_m (mrs : shr_record) :
  0 <= shr_m mrs -> shr_m (shr_1 mrs) = shr_m mrs / 2.
Proof.
  destruct mrs as [m r s]; simpl.
  destruct m as [|[p|p|]|p]; simpl; intros H; try done.
  - apply (Z.div_unique _ _ _ 1); lia.
  - apply (Z.div_unique _ _ _ 0); lia.
Qed.

Lemma iter_shr_1_m (p : positive) :
  forall mrs, 0 <= shr_m mrs ->
  shr_m (SpecFloat.iter_pos shr_1 p mrs) = shr_m mrs / 2 ^ Zpos p.
Proof.
  assert (Hnn : forall a b, 0 <= a -> 0 < b -> 0 <= a / b)
    by (intros; apply Z.div_pos; lia).
  induction p as [p IH|p IH|]; intros mrs H; simpl.
  - assert (H1 : 0 <= shr_m (shr_1 mrs))
      by (rewrite shr_1_m by done; apply Hnn; lia).
    assert (H2 : 0 <= shr_m (SpecFloat.iter_pos shr_1 p (shr_1 mrs)))
      by (rewrite IH by done; apply Hnn; [done|apply Z.pow_pos_nonneg; lia]).
    rewrite (IH _ H2), (IH _ H1), shr_1_m by done.
    rewrite !Z.div_div by (try apply Z.pow_pos_nonneg; lia).
    f_equal. replace (Zpos p~1) with (1 + (Zpos p + Zpos p)) by lia.
    rewrite !Z.pow_add_r by lia. lia.
  - assert (H2 : 0 <= shr_m (SpecFloat.iter_pos shr_1 p mrs))
      by (rewrite IH by done; apply Hnn; [done|apply Z.pow_pos_nonneg; lia]).
    rewrite (IH _ H2), (IH _ H).
    rewrite !Z.div_div by (try apply Z.pow_pos_nonneg; lia).
    f_equal. replace (Zpos p~0) with (Zpos p + Zpos p) by lia.
    rewrite !Z.pow_add_r by lia. lia.
  - by rewrite shr_1_m.
Qed.

Lemma digits2_pos_le (m : positive) :
  2 ^ (Zpos (digits2_pos m) - 1) <= Zpos m.
Proof.
  induction m as [m IH|m IH|]; simpl; [| |done].
  - rewrite Pos2Z.inj_succ.
    replace (Z.succ (Zpos (digits2_pos m)) - 1) with (Z.succ (Zpos (digits2_pos m) - 1)) by lia.
    rewrite Z.pow_succ_r by lia. lia.
  - rewrite Pos2Z.inj_succ.
    replace (Z.succ (Zpos (digits2_pos m)) - 1) with (Z.succ (Zpos (digits2_pos m) - 1)) by lia.
    rewrite Z.pow_succ_r by lia. lia.
Qed.

Lemma shr_fexp_pos (m e : Z) (l : location) :
  0 < m -> emin PyFloat.prec PyFloat.emax <= e ->
  0 < shr_m (fst (shr_fexp PyFloat.prec PyFloat.emax m e l)) /\
  emin PyFloat.prec PyFloat.emax <= snd (shr_fexp PyFloat.prec PyFloat.emax m e l).
Proof.
  intros Hm He. unfold shr_fexp, shr.
  assert (Hrec : shr_m (shr_record_of_loc m l) = m) by (by destruct l as [|[]]).
  destruct m as [|p|p]; try lia. simpl Zdigits2.
  set (d := Zpos (digits2_pos p)).
  destruct (fexp _ _ (d + e) - e) as [|n|n] eqn:Hn; simpl; rewrite ?Hrec; try lia.
  rewrite iter_shr_1_m by (rewrite Hrec; lia). rewrite Hrec.
  unfold fexp, emin, PyFloat.prec, PyFloat.emax in *.
  assert (Hn' : Zpos n = d - 53) by lia.
  split; [|lia].
  apply Z.div_str_pos. split; [apply Z.pow_pos_nonneg; lia|].
  etrans; [|apply digits2_pos_le]. fold d.
  apply Z.pow_le_mono_r; lia.
Qed.

Lemma round_nearest_even_ge (m : Z) (l : location) : m <= round_nearest_even m l.
Proof. destruct l as [|[]]; simpl; try lia. destruct (Z.even m); lia. Qed.

Lemma binary_round_aux_pos s m e l :
  0 < m -> emin PyFloat.prec PyFloat.emax <= e ->
  PyFloat.is_zero (binary_round_aux PyFloat.prec PyFloat.emax s m e l) = false.
Proof.
  intros Hm He. unfold binary_round_aux.
  pose proof (shr_fexp_pos m e l Hm He) as [H1 H2].
  destruct (shr_fexp _ _ m e l) as [mrs' e']; simpl in H1, H2.
  pose proof (round_nearest_even_ge (shr_m mrs') (loc_of_shr_record mrs')) as Hr.
  pose proof (shr_fexp_pos (round_nearest_even (shr_m mrs') (loc_of_shr_record mrs'))
                e' loc_Exact ltac:(lia) H2) as [H3 _].
  destruct (shr_fexp _ _ _ e' loc_Exact) as [mrs'' e'']; simpl in H3.
  destruct (shr_m mrs''); try lia.
  by destruct (_ <=? _).
Qed.

Lemma of_int_pos (z : Z) (x : float) :
  0 < z -> PyFloat.of_int z = inr x -> PyFloat.is_zero x = false.
Proof.
  intros Hz. unfold PyFloat.of_int.
  destruct z as [|m|m]; try lia. simpl binary_normalize.
  unfold binary_round.
  destruct (shl_align m 0 _) as [mz ez] eqn:Hal.
  assert (He : emin PyFloat.prec PyFloat.emax <= ez).
  { revert Hal. unfold shl_align, fexp, emin, PyFloat.prec, PyFloat.emax.
    destruct (_ - 0) eqn:Hd; intros [= <- <-]; lia. }
  pose proof (binary_round_aux_pos false (Zpos mz) ez loc_Exact ltac:(lia) He) as Hnz.
  destruct (binary_round_aux _ _ _ _ _ _); try done; by intros [= <-].
Qed.

(** * Rounding, with its error *)

Lemma mod_half (h X : Z) :
  0 < h ->
  (X mod (2 * h) <> 0 <-> (h <= X mod (2 * h) \/ X mod h <> 0)).
Proof.
  intros Hh.
  assert (Hm : X mod h = (X mod (2 * h)) mod h).
  { rewrite <- (Z.mul_comm h 2). rewrite Z.rem_mul_r by lia.
    rewrite Z.add_mod, Z.mul_comm, Z.mod_mul, Z.add_0_r, !Z.mod_mod by lia. done. }
  pose proof (Z.mod_pos_bound X (2 * h) ltac:(lia)) as Hb.
  rewrite Hm. set (t := X mod (2 * h)) in *.
  destruct (Z_lt_le_dec t h) as [Hlt|Hge].
  - rewrite (Z.mod_small t h) by lia. lia.
  - split; [by left|lia].
Qed.

Lemma shr_1_rep (H X k : Z) (mrs : shr_record) :
  0 < H -> 0 <= k -> 0 <= X ->
  half_rep H X k mrs -> half_rep H X (k + 1) (shr_1 mrs).
Proof.
  intros HH Hk HX (Hm & Hr & Hs). unfold half_rep.
  assert (Hh : 0 < H * 2 ^ k) by (apply Z.mul_pos_pos; [lia|apply Z.pow_pos_nonneg; lia]).
  replace (H * 2 ^ (k + 1)) with (2 * (H * 2 ^ k))
    by (rewrite Z.pow_add_r by lia; change (2 ^ 1) with 2; lia).
  set (h := H * 2 ^ k) in *.
  assert (Hm0 : 0 <= shr_m mrs) by (rewrite Hm; apply Z.div_pos; lia).
  assert (Hdiv : X / (2 * (2 * h)) = shr_m mrs / 2)
    by (rewrite Hm, Z.div_div by lia; f_equal; lia).
  assert (Hodd : 2 * h <= X mod (2 * (2 * h)) <-> Z.odd (shr_m mrs) = true).
  { rewrite (Z.mul_comm 2 (2 * h)), Z.rem_mul_r by lia. rewrite <- Hm.
    pose proof (Z.mod_pos_bound X (2 * h) ltac:(lia)).
    rewrite Zodd_mod. destruct (Z.eqb_spec (shr_m mrs mod 2) 1) as [->|Hne].
    - split; [done|lia].
    - pose proof (Z.mod_pos_bound (shr_m mrs) 2 ltac:(lia)).
      assert (shr_m mrs mod 2 = 0) as -> by lia. split; [lia|done]. }
  assert (Hst : X mod (2 * h) <> 0 <-> (shr_r mrs = true \/ shr_s mrs = true))
    by (rewrite Hr, Hs; by apply mod_half).
  destruct mrs as [m r s]; cbn [shr_m shr_r shr_s] in *.
  rewrite Hdiv.
  assert (Hs' : orb r s = true <-> X mod (2 * h) <> 0)
    by (rewrite Hst, orb_true_iff; done).
  destruct m as [|[p|p|]|p]; cbn [shr_1 shr_m shr_r shr_s]; try lia.
  - split; [done|]. split; [|done]. rewrite Hodd. done.
  - split; [|split; [|done]].
    + apply (Z.div_unique _ _ _ 1); lia.
    + rewrite Hodd. done.
  - split; [|split; [|done]].
    + apply (Z.div_unique _ _ _ 0); lia.
    + rewrite Hodd. done.
  - split; [done|]. split; [|done]. rewrite Hodd. done.
Qed.

Lemma iter_shr_1_rep (H X : Z) (p : positive) :
  0 < H -> 0 <= X ->
  forall k mrs, 0 <= k -> half_rep H X k mrs ->
  half_rep H X (k + Zpos p) (SpecFloat.iter_pos shr_1 p mrs).
Proof.
  intros HH HX. induction p as [p IH|p IH|]; intros k mrs Hk Hrep; cbn [SpecFloat.iter_pos].
  - replace (k + Zpos p~1) with (((k + 1) + Zpos p) + Zpos p) by lia.
    apply IH; [lia|]. apply IH; [lia|]. by apply shr_1_rep.
  - replace (k + Zpos p~0) with ((k + Zpos p) + Zpos p) by lia.
    apply IH; [lia|]. by apply IH.
  - by apply shr_1_rep.
Qed.

(** Rounding to nearest moves by at most half a unit. *)
Lemma round_nearest_even_error (H X k : Z) (mrs : shr_record) :
  0 < H -> 0 <= k -> 0 <= X -> half_rep H X k mrs ->
  let m1 := round_nearest_even (shr_m mrs) (loc_of_shr_record mrs) in
  shr_m mrs <= m1 <= shr_m mrs + 1 /\
  Z.abs (m1 * (2 * (H * 2 ^ k)) - X) <= H * 2 ^ k /\
  (shr_r mrs = false -> shr_s mrs = false -> m1 * (2 * (H * 2 ^ k)) = X).
Proof.
  intros HH Hk HX (Hm & Hr & Hs).
  assert (Hh : 0 < H * 2 ^ k) by (apply Z.mul_pos_pos; [lia|apply Z.pow_pos_nonneg; lia]).
  set (h := H * 2 ^ k) in *.
  pose proof (Z.div_mod X (2 * h) ltac:(lia)) as Hdm. rewrite <- Hm in Hdm.
  pose proof (Z.mod_pos_bound X (2 * h) ltac:(lia)) as Hb.
  pose proof (mod_half h X Hh) as Hmh.
  set (t := X mod (2 * h)) in *.
  destruct mrs as [m r s]; cbn [shr_m shr_r shr_s loc_of_shr_record] in *.
  destruct r, s; cbn [round_nearest_even].
  - assert (h <= t) by (by apply Hr). split; [lia|]. split; [lia|done].
  - assert (h <= t) by (by apply Hr).
    assert (X mod h = 0) by (destruct (Z.eq_dec (X mod h) 0); [done|]; by apply Hs in n).
    assert (t = h).
    { assert (Hth : X mod h = t mod h).
      { unfold t. rewrite (Z.mul_comm 2 h), Z.rem_mul_r by lia.
        rewrite Z.add_mod, Z.mul_comm, Z.mod_mul, Z.add_0_r, !Z.mod_mod by lia. done. }
      rewrite Hth in H1.
      pose proof (Z.div_mod t h ltac:(lia)) as Ht. rewrite H1 in Ht.
      assert (Hq1 : t / h < 2) by (apply Z.div_lt_upper_bound; lia).
      assert (Hq2 : 1 <= t / h) by (apply Z.div_le_lower_bound; lia).
      assert (Hq : t / h = 1) by lia. rewrite Hq in Ht. lia. }
    destruct (Z.even m); (split; [lia|]; split; [lia|done]).
  - assert (~ h <= t) by (intros ?; assert (false = true) by (by apply Hr); done).
    split; [lia|]. split; [lia|done].
  - assert (~ h <= t) by (intros ?; assert (false = true) by (by apply Hr); done).
    assert (X mod h = 0) by (destruct (Z.eq_dec (X mod h) 0); [done|]; by apply Hs in n).
    assert (t = 0) by (destruct (Z.eq_dec t 0); [done|]; apply Hmh in n; lia).
    split; [lia|]. split; [lia|]. intros _ _. lia.
Qed.

Lemma digits2_pos_lt (m : positive) : Zpos m < 2 ^ Zpos (digits2_pos m).
Proof.
  induction m as [m IH|m IH|]; simpl digits2_pos; [| |done];
    rewrite Pos2Z.inj_succ, Z.pow_succ_r by lia; lia.
Qed.

Lemma digits2_pos_bound (m : positive) (n : Z) :
  Zpos m < 2 ^ n -> 0 <= n -> Zpos (digits2_pos m) <= n.
Proof.
  intros Hm Hn. pose proof (digits2_pos_le m) as Hle.
  destruct (Z_le_gt_dec (Zpos (digits2_pos m)) n) as [|Hgt]; [done|].
  assert (2 ^ n <= 2 ^ (Zpos (digits2_pos m) - 1)) by (apply Z.pow_le_mono_r; lia). lia.
Qed.

Lemma shr_record_of_loc_m (m : Z) (l : location) : shr_m (shr_record_of_loc m l) = m.
Proof. by destruct l as [|[]]. Qed.

Lemma loc_of_shr_record_of_loc (m : Z) (l : location) :
  loc_of_shr_record (shr_record_of_loc m l) = l.
Proof. by destruct l as [|[]]. Qed.

(** The first step of a rounding: shift right until 53 bits are left. *)
Lemma shr_fexp_rep (m : positive) (e : Z) (l : location) (H X : Z) :
  0 < H -> 0 <= X -> -1074 <= e ->
  half_rep H X 0 (shr_record_of_loc (Zpos m) l) ->
  let k := Z.max (Zpos (digits2_pos m) - 53) 0 in
  exists mrs,
    shr_fexp PyFloat.prec PyFloat.emax (Zpos m) e l = (mrs, e + k) /\
    half_rep H X k mrs.
Proof.
  intros HH HX He Hrep k. unfold shr_fexp, shr. cbn [Zdigits2].
  unfold fexp, emin, PyFloat.prec, PyFloat.emax.
  set (d := Zpos (digits2_pos m)) in *.
  destruct (Z.max (d + e - 53) (3 - 1024 - 53) - e) as [|n|n] eqn:Hn.
  - exists (shr_record_of_loc (Zpos m) l). assert (k = 0) as -> by lia.
    by rewrite Z.add_0_r.
  - exists (SpecFloat.iter_pos shr_1 n (shr_record_of_loc (Zpos m) l)).
    assert (k = Zpos n) as -> by lia. split; [done|].
    by apply (iter_shr_1_rep H X n HH HX 0).
  - exists (shr_record_of_loc (Zpos m) l). assert (k = 0) as -> by lia.
    by rewrite Z.add_0_r.
Qed.

(** What [binary_round_aux] returns for a positive mantissa that is not
    too large: a finite number, off the exact value by at most one part in
    [2^53], and exact when nothing had to be shifted out. *)
Lemma binary_round_aux_spec (s : bool) (mx : positive) (ex : Z) (lx : location)
    (H X : Z) :
  0 < H -> 0 <= X -> -1074 <= ex ->
  half_rep H X 0 (shr_record_of_loc (Zpos mx) lx) ->
  lx = loc_Exact \/ 2 ^ 52 <= Zpos mx ->
  Zpos (digits2_pos mx) + ex <= 1000 -> ex <= 900 ->
  exists m e,
    binary_round_aux PyFloat.prec PyFloat.emax s (Zpos mx) ex lx = S754_finite s m e /\
    ex <= e /\ Zpos m < 2 ^ 53 /\
    Z.abs (Zpos m * 2 ^ (e - ex) * (2 * H) - X) * 2 ^ 53 <= X /\
    (lx = loc_Exact -> Zpos mx < 2 ^ 53 -> Zpos m * 2 ^ (e - ex) * (2 * H) = X).
Proof.
  intros HH HX Hex Hrep0 Hbig Hov1 Hov2.
  destruct (shr_fexp_rep mx ex lx H X HH HX Hex Hrep0) as (mrs & Hshr & Hrep).
  set (d := Zpos (digits2_pos mx)) in *. set (k := Z.max (d - 53) 0) in *.
  assert (Hk : 0 <= k) by lia.
  pose proof (round_nearest_even_error H X k mrs HH Hk HX Hrep) as (Hm1 & Herr & Hexact).
  set (m1 := round_nearest_even (shr_m mrs) (loc_of_shr_record mrs)) in *.
  assert (H2k : 0 < 2 ^ k) by (apply Z.pow_pos_nonneg; lia).
  assert (Hmx : Zpos mx = X / (2 * H)).
  { destruct Hrep0 as (Hm0 & _). rewrite shr_record_of_loc_m in Hm0.
    by rewrite Hm0, Z.pow_0_r, Z.mul_1_r. }
  assert (Hmk : shr_m mrs = Zpos mx / 2 ^ k).
  { destruct Hrep as (Hm & _). rewrite Hm, Hmx, Z.div_div by lia.
    f_equal. lia. }
  pose proof (digits2_pos_le mx) as Hdle. pose proof (digits2_pos_lt mx) as Hdlt.
  fold d in Hdle, Hdlt.
  assert (Hrange : 1 <= shr_m mrs < 2 ^ 53 /\ (0 < k -> 2 ^ 52 <= shr_m mrs)).
  { rewrite Hmk. destruct (Z_le_gt_dec d 53) as [Hd|Hd].
    - assert (k = 0) as -> by lia. rewrite Z.pow_0_r, Z.div_1_r.
      split; [|lia]. split; [lia|].
      eapply Z.lt_le_trans; [exact Hdlt|]. apply Z.pow_le_mono_r; lia.
    - assert (Hkd : k = d - 53) by lia.
      assert (Hp : 2 ^ (d - 1) = 2 ^ 52 * 2 ^ k)
        by (rewrite <- Z.pow_add_r by lia; f_equal; lia).
      assert (Hp' : 2 ^ d = 2 ^ 53 * 2 ^ k)
        by (rewrite <- Z.pow_add_r by lia; f_equal; lia).
      assert (2 ^ 52 <= Zpos mx / 2 ^ k) by (apply Z.div_le_lower_bound; lia).
      assert (Zpos mx / 2 ^ k < 2 ^ 53) by (apply Z.div_lt_upper_bound; lia).
      lia. }
  destruct Hrange as [Hrange Hrange52].
  assert (Hcase : m1 < 2 ^ 53 \/ m1 = 2 ^ 53) by lia.
  assert (Hbound : H * 2 ^ k * 2 ^ 53 <= X \/
                   (lx = loc_Exact /\ k = 0)).
  { pose proof (Z.div_mod X (2 * H) ltac:(lia)) as Hdm.
    pose proof (Z.mod_pos_bound X (2 * H) ltac:(lia)) as Hmb. rewrite <- Hmx in Hdm.
    destruct (Z_le_gt_dec d 53) as [Hd|Hd].
    - assert (k = 0) by lia. destruct Hbig as [->|Hbig]; [by right|].
      left. subst k. rewrite H0, Z.pow_0_r. nia.
    - left. assert (Hkd : k = d - 53) by lia.
      assert (Hp : 2 ^ (d - 1) = 2 ^ 52 * 2 ^ k)
        by (rewrite <- Z.pow_add_r by lia; f_equal; lia).
      nia. }
  unfold binary_round_aux. rewrite Hshr. fold m1.
  assert (Hm1pos : 0 < m1) by lia.
  destruct m1 as [|p1|p1] eqn:Hp1; try lia.
  destruct (shr_fexp_rep p1 (ex + k) loc_Exact 1 (2 * Zpos p1)) as (mrs2 & Hshr2 & Hrep2);
    [lia|lia|lia| |].
  { unfold half_rep. cbn [shr_record_of_loc shr_m shr_r shr_s].
    rewrite Z.pow_0_r, !Z.mul_1_r, Z.mod_1_r.
    split; [by rewrite Z.mul_comm, Z.div_mul|].
    split; [|done]. rewrite Z.mul_comm, Z.mod_mul by lia. split; [done|lia]. }
  rewrite Hshr2.
  destruct Hcase as [Hlt|Heq].
  - assert (Hd1 : Zpos (digits2_pos p1) <= 53) by (apply digits2_pos_bound; lia).
    replace (Z.max (Zpos (digits2_pos p1) - 53) 0) with 0 in * by lia.
    destruct Hrep2 as (Hm2 & _).
    rewrite Z.pow_0_r, !Z.mul_1_r, Z.mul_comm, Z.div_mul in Hm2 by lia.
    rewrite Hm2, Z.add_0_r.
    assert ((ex + k <=? PyFloat.emax - PyFloat.prec) = true) as ->
      by (unfold PyFloat.emax, PyFloat.prec; apply Z.leb_le; lia).
    exists p1, (ex + k). replace (ex + k - ex) with k by lia.
    split; [done|]. split; [lia|]. split; [done|].
    replace (Zpos p1 * 2 ^ k * (2 * H)) with (Zpos p1 * (2 * (H * 2 ^ k))) by lia.
    split.
    + destruct Hbound as [Hb|[-> ->]]; [nia|].
      rewrite Hexact; [rewrite Z.sub_diag; simpl; lia| |].
      * destruct Hrep as (_ & Hr & _). destruct (shr_r mrs); [|done].
        exfalso. rewrite Z.pow_0_r, Z.mul_1_r in Hr.
        destruct Hrep0 as (_ & Hr0 & _). cbn in Hr0.
        rewrite Z.pow_0_r, Z.mul_1_r in Hr0. assert (false = true) by (apply Hr0, Hr; done).
        done.
      * destruct Hrep as (_ & _ & Hs). destruct (shr_s mrs); [|done].
        exfalso. rewrite Z.pow_0_r, Z.mul_1_r in Hs.
        destruct Hrep0 as (_ & _ & Hs0). cbn in Hs0.
        rewrite Z.pow_0_r, Z.mul_1_r in Hs0. assert (false = true) by (apply Hs0, Hs; done).
        done.
    + intros -> Hsmall.
      assert (k = 0) as Hk0.
      { assert (d <= 53) by (apply digits2_pos_bound; lia). lia. }
      revert Hexact Hrep. rewrite Hk0. intros Hexact Hrep. apply Hexact.
      * destruct Hrep as (_ & Hr & _). destruct (shr_r mrs); [|done].
        exfalso. destruct Hrep0 as (_ & Hr0 & _). cbn in Hr0.
        assert (false = true) by (apply Hr0, Hr; done). done.
      * destruct Hrep as (_ & _ & Hs). destruct (shr_s mrs); [|done].
        exfalso. destruct Hrep0 as (_ & _ & Hs0). cbn in Hs0.
        assert (false = true) by (apply Hs0, Hs; done). done.
  - change (2 ^ 53) with 9007199254740992 in Heq. injection Heq as ->.
    change (Z.max (Zpos (digits2_pos 9007199254740992) - 53) 0) with 1 in *.
    destruct Hrep2 as (Hm2 & _).
    change (shr_m mrs2 = 4503599627370496) in Hm2. rewrite Hm2.
    assert ((ex + k + 1 <=? PyFloat.emax - PyFloat.prec) = true) as ->
      by (unfold PyFloat.emax, PyFloat.prec; apply Z.leb_le; lia).
    exists 4503599627370496%positive, (ex + k + 1).
    replace (ex + k + 1 - ex) with (k + 1) by lia.
    rewrite Z.pow_add_r by lia. change (2 ^ 1) with 2.
    split; [done|]. split; [lia|]. split; [done|].
    replace (4503599627370496 * (2 ^ k * 2) * (2 * H))
      with (9007199254740992 * (2 * (H * 2 ^ k))) by lia.
    split.
    + destruct Hbound as [Hb|[-> Hk0]]; [nia|].
      exfalso. rewrite Hk0 in *.
      destruct Hrep0 as (_ & Hr0 & Hs0). cbn in Hr0, Hs0.
      destruct Hrep as (Hm & Hr & Hs).
      assert (shr_r mrs = false) by (destruct (shr_r mrs); [|done];
        assert (false = true) by (apply Hr0, Hr; done); done).
      assert (shr_s mrs = false) by (destruct (shr_s mrs); [|done];
        assert (false = true) by (apply Hs0, Hs; done); done).
      unfold m1 in Hp1. destruct mrs as [mm [] []]; try done.
      cbn in Hp1. cbn in Hrange. lia.
    + intros -> Hsmall. exfalso.
      assert (Hk0 : k = 0).
      { assert (d <= 53) by (apply digits2_pos_bound; lia). lia. }
      rewrite Hk0 in *.
      destruct Hrep0 as (_ & Hr0 & Hs0). cbn in Hr0, Hs0.
      destruct Hrep as (Hm & Hr & Hs).
      assert (shr_r mrs = false) by (destruct (shr_r mrs); [|done];
        assert (false = true) by (apply Hr0, Hr; done); done).
      assert (shr_s mrs = false) by (destruct (shr_s mrs); [|done];
        assert (false = true) by (apply Hs0, Hs; done); done).
      unfold m1 in Hp1. destruct mrs as [mm [] []]; try done.
      cbn in Hp1. cbn in Hrange. lia.
Qed.

Lemma iter_xO_val (m d : positive) : Zpos (Pos.iter xO m d) = Zpos m * 2 ^ Zpos d.
Proof.
  induction d as [|d IH] using Pos.peano_ind.
  - simpl. lia.
  - rewrite Pos.iter_succ, Pos2Z.inj_xO, IH, Pos2Z.inj_succ, Z.pow_succ_r by lia. lia.
Qed.

Lemma shl_align_val (mx : positive) (ex ez : Z) :
  ez <= ex ->
  Zpos (fst (shl_align mx ex ez)) = Zpos mx * 2 ^ (ex - ez) /\
  snd (shl_align mx ex ez) = ez.
Proof.
  intros Hle. unfold shl_align.
  destruct (ez - ex) as [|d|d] eqn:Hd; cbn [fst snd]; try lia.
  - assert (ex = ez) as -> by lia. rewrite Z.sub_diag. simpl. lia.
  - rewrite iter_xO_val. split; [|done]. f_equal. f_equal. lia.
Qed.

(** [binary_round]: rounding an integer mantissa with its exponent. *)
Lemma binary_round_spec (s : bool) (m : positive) (e : Z) :
  -1074 <= e -> Zpos (digits2_pos m) + e <= 900 ->
  exists m' e',
    binary_round PyFloat.prec PyFloat.emax s m e = S754_finite s m' e' /\
    -1074 <= e' /\ Zpos m' < 2 ^ 53 /\
    Z.abs (Zpos m' * 2 ^ (e' + 1074) - Zpos m * 2 ^ (e + 1074)) * 2 ^ 53
      <= Zpos m * 2 ^ (e + 1074).
Proof.
  intros He Hov. unfold binary_round.
  set (d := Zpos (digits2_pos m)) in *.
  pose proof (digits2_pos_lt m) as Hdlt. fold d in Hdlt.
  assert (Hd : 1 <= d) by (unfold d; lia).
  unfold fexp, emin, PyFloat.prec, PyFloat.emax.
  set (f := Z.max (d + e - 53) (3 - 1024 - 53)).
  assert (Hf : -1074 <= f /\ d + e - 53 <= f /\ (f = -1074 \/ f = d + e - 53))
    by (unfold f; lia).
  destruct (Z_lt_le_dec f e) as [Hlt|Hge].
  - pose proof (shl_align_val m e f ltac:(lia)) as [Hmz Hez].
    destruct (shl_align m e f) as [mz ez]. cbn [fst snd] in *. subst ez.
    assert (Hmz53 : Zpos mz < 2 ^ 53).
    { rewrite Hmz. eapply Z.lt_le_trans.
      - apply Z.mul_lt_mono_pos_r; [apply Z.pow_pos_nonneg; lia|exact Hdlt].
      - rewrite <- Z.pow_add_r by lia. apply Z.pow_le_mono_r; lia. }
    destruct (binary_round_aux_spec s mz f loc_Exact 1 (2 * Zpos mz))
      as (m' & e' & Heq & Hle & Hm' & _ & Hexact); try lia.
    { unfold half_rep. cbn [shr_record_of_loc shr_m shr_r shr_s].
      rewrite Z.pow_0_r, !Z.mul_1_r, Z.mod_1_r.
      split; [by rewrite Z.mul_comm, Z.div_mul|].
      split; [|done]. rewrite Z.mul_comm, Z.mod_mul by lia. split; [done|lia]. }
    { by left. }
    { assert (Zpos (digits2_pos mz) <= 53) by (apply digits2_pos_bound; lia). lia. }
    exists m', e'. split; [exact Heq|]. split; [lia|]. split; [done|].
    specialize (Hexact eq_refl Hmz53).
    assert (Hval : Zpos m' * 2 ^ (e' + 1074) = Zpos m * 2 ^ (e + 1074)).
    { replace (e' + 1074) with ((e' - f) + (f + 1074)) by lia.
      replace (e + 1074) with ((e - f) + (f + 1074)) by lia.
      rewrite (Z.pow_add_r 2 (e' - f) (f + 1074)), (Z.pow_add_r 2 (e - f) (f + 1074)) by lia.
      rewrite Hmz in Hexact.
      assert (Hm'e : Zpos m' * 2 ^ (e' - f) = Zpos m * 2 ^ (e - f)) by lia.
      rewrite !Z.mul_assoc. rewrite Hm'e. reflexivity. }
    rewrite Hval, Z.sub_diag. simpl.
    assert (0 < 2 ^ (e + 1074)) by (apply Z.pow_pos_nonneg; lia). nia.
  - assert (Hsh : shl_align m e f = (m, e)).
    { unfold shl_align. destruct (f - e) eqn:Hfe; try done. lia. }
    rewrite Hsh.
    destruct (binary_round_aux_spec s m e loc_Exact 1 (2 * Zpos m))
      as (m' & e' & Heq & Hle & Hm' & Herr & _); try lia.
    { unfold half_rep. cbn [shr_record_of_loc shr_m shr_r shr_s].
      rewrite Z.pow_0_r, !Z.mul_1_r, Z.mod_1_r.
      split; [by rewrite Z.mul_comm, Z.div_mul|].
      split; [|done]. rewrite Z.mul_comm, Z.mod_mul by lia. split; [done|lia]. }
    { by left. }
    exists m', e'. split; [exact Heq|]. split; [lia|]. split; [done|].
    assert (Hp : 0 < 2 ^ (e + 1074)) by (apply Z.pow_pos_nonneg; lia).
    replace (e' + 1074) with ((e' - e) + (e + 1074)) by lia.
    rewrite Z.pow_add_r by lia.
    set (P := 2 ^ (e + 1074)) in *. set (Q := 2 ^ (e' - e)) in *.
    replace (Zpos m' * (Q * P) - Zpos m * P) with ((Zpos m' * Q - Zpos m) * P) by lia.
    rewrite Z.abs_mul, (Z.abs_eq P) by lia.
    replace (Zpos m' * Q * (2 * 1) - 2 * Zpos m) with (2 * (Zpos m' * Q - Zpos m)) in Herr by lia.
    rewrite Z.abs_mul in Herr. change (Z.abs 2) with 2 in Herr. nia.
Qed.

(** * Exact values of sums and differences *)

Lemma scale_pos : 0 < scale.
Proof. unfold scale. apply Z.pow_pos_nonneg; lia. Qed.

Lemma cond_Zopp_mul (s : bool) (a b : Z) : cond_Zopp s a * b = cond_Zopp s (a * b).
Proof. destruct s; simpl; lia. Qed.

Lemma abs_cond_Zopp (s : bool) (a : Z) : Z.abs (cond_Zopp s a) = Z.abs a.
Proof. destruct s; simpl; lia. Qed.

Lemma sub_add_opp (x y : float) : PyFloat.sub x y = PyFloat.add x (SFopp y).
Proof.
  destruct x as [[]|[]| |sx mx ex], y as [[]|[]| |sy my ey]; try reflexivity.
  unfold PyFloat.sub, PyFloat.add, SFsub, SFadd. cbn [SFopp].
  destruct sy; cbn [cond_Zopp negb]; [|reflexivity].
  by rewrite Z.sub_opp_r.
Qed.

Lemma val_opp (x : float) : val (SFopp x) = - val x.
Proof. destruct x as [s|s| |[] m e]; simpl; lia. Qed.

Lemma valid_opp (x : float) : valid x -> valid (SFopp x).
Proof. by destruct x. Qed.

(** A float sum is off the exact sum by at most one part in [2^53]. *)
Lemma add_spec (x y : float) :
  valid x -> valid y -> Z.abs (val x + val y) < 2 ^ 900 * scale ->
  valid (PyFloat.add x y) /\
  Z.abs (val (PyFloat.add x y) - (val x + val y)) * 2 ^ 53 <= Z.abs (val x + val y).
Proof.
  intros Hx Hy Hb.
  destruct x as [sx| | |sx mx ex]; try done;
    destruct y as [sy| | |sy my ey]; try done.
  - destruct sx, sy; simpl; lia.
  - cbn [PyFloat.add SFadd]. split; [done|]. cbn [val]. rewrite Z.add_0_l, Z.sub_diag. simpl. lia.
  - cbn [PyFloat.add SFadd]. split; [done|]. cbn [val]. rewrite Z.add_0_r, Z.sub_diag. simpl. lia.
  - destruct Hx as [Hex Hmx], Hy as [Hey Hmy].
    unfold PyFloat.add, SFadd.
    set (ez := Z.min ex ey).
    pose proof (shl_align_val mx ex ez ltac:(lia)) as [Hax _].
    pose proof (shl_align_val my ey ez ltac:(lia)) as [Hay _].
    rewrite Hax, Hay.
    set (M := cond_Zopp sx (Zpos mx * 2 ^ (ex - ez)) + cond_Zopp sy (Zpos my * 2 ^ (ey - ez))).
    assert (Hez : 0 <= ez + 1074) by lia.
    assert (Hez' : -1074 <= ez) by lia.
    assert (Hsum : val (S754_finite sx mx ex) + val (S754_finite sy my ey)
                   = M * 2 ^ (ez + 1074)).
    { unfold M. cbn [val]. rewrite Z.mul_add_distr_r, !cond_Zopp_mul.
      rewrite <- !Z.mul_assoc, <- !Z.pow_add_r by lia.
      by replace (ex - ez + (ez + 1074)) with (ex + 1074) by lia;
         replace (ey - ez + (ez + 1074)) with (ey + 1074) by lia. }
    rewrite Hsum in *.
    assert (Hp : 0 < 2 ^ (ez + 1074)) by (apply Z.pow_pos_nonneg; lia).
    assert (Hdig : forall p : positive, Zpos p * 2 ^ (ez + 1074) < 2 ^ 900 * scale ->
                   Zpos (digits2_pos p) + ez <= 900).
    { intros p Hlt. pose proof (digits2_pos_le p) as Hle.
      destruct (Z_le_gt_dec (Zpos (digits2_pos p) + ez) 900) as [|Hgt]; [done|exfalso].
      assert (Hez9 : ez < 900).
      { destruct (Z_lt_le_dec ez 900) as [|Hge]; [done|exfalso].
        assert (2 ^ (900 + 1074) <= 2 ^ (ez + 1074)) by (apply Z.pow_le_mono_r; lia).
        assert (Hs : 2 ^ (900 + 1074) = 2 ^ 900 * scale)
          by (unfold scale; by rewrite Z.pow_add_r by lia).
        rewrite Hs in *. clear Hs. nia. }
      assert (2 ^ (900 - ez) <= 2 ^ (Zpos (digits2_pos p) - 1))
        by (apply Z.pow_le_mono_r; lia).
      assert (2 ^ 900 * scale = 2 ^ (900 - ez) * 2 ^ (ez + 1074)).
      { unfold scale. rewrite <- !Z.pow_add_r by lia. f_equal. lia. }
      nia. }
    destruct M as [|p|p]; cbn [binary_normalize].
    + split; [done|]. simpl. lia.
    + rewrite Z.abs_eq in Hb by lia.
      destruct (binary_round_spec false p ez Hez' (Hdig p Hb)) as (m' & e' & -> & He' & Hm' & Herr).
      split; [done|]. cbn [val cond_Zopp]. rewrite (Z.abs_eq (Zpos p * _)) by lia. done.
    + assert (Hb' : Zpos p * 2 ^ (ez + 1074) < 2 ^ 900 * scale) by lia.
      destruct (binary_round_spec true p ez Hez' (Hdig p Hb')) as (m' & e' & -> & He' & Hm' & Herr).
      split; [done|]. cbn [val cond_Zopp].
      replace (- (Zpos m' * 2 ^ (e' + 1074)) - Zneg p * 2 ^ (ez + 1074))
        with (- (Zpos m' * 2 ^ (e' + 1074) - Zpos p * 2 ^ (ez + 1074))) by lia.
      rewrite Z.abs_opp.
      replace (Z.abs (Zneg p * 2 ^ (ez + 1074))) with (Zpos p * 2 ^ (ez + 1074)) by lia.
      done.
Qed.

(** A float difference is off the exact difference by at most one part in
    [2^53]. *)
Lemma sub_spec (x y : float) :
  valid x -> valid y -> Z.abs (val x - val y) < 2 ^ 900 * scale ->
  valid (PyFloat.sub x y) /\
  Z.abs (val (PyFloat.sub x y) - (val x - val y)) * 2 ^ 53 <= Z.abs (val x - val y).
Proof.
  intros Hx Hy Hb. rewrite sub_add_opp.
  pose proof (add_spec x (SFopp y) Hx (valid_opp y Hy)) as H.
  rewrite val_opp in H. replace (val x + - val y) with (val x - val y) in H by lia.
  by apply H.
Qed.

(** * Decimal amounts *)

(** The float nearest to [k / 100] is off it by at most one part in [2^53]. *)
Lemma div_hundred_spec (s : bool) (k : positive) :
  Zpos k < 2 ^ 52 ->
  exists m e,
    PyFloat.div (S754_finite s k 0) (S754_finite false 100 0) = S754_finite s m e /\
    -60 <= e /\ Zpos m < 2 ^ 53 /\
    Z.abs (100 * (Zpos m * 2 ^ (e + 1074)) - Zpos k * scale) * 2 ^ 53 <= Zpos k * scale.
Proof.
  intros Hk. unfold PyFloat.div, SFdiv, SFdiv_core_binary.
  cbn [Zdigits2]. change (digits2_pos 100) with 7%positive.
  set (d := Zpos (digits2_pos k)).
  pose proof (digits2_pos_le k) as Hdle. pose proof (digits2_pos_lt k) as Hdlt.
  assert (Hd : 1 <= d <= 52) by (split; [unfold d; lia|apply digits2_pos_bound; lia]).
  fold d in Hdle, Hdlt.
  assert (He' : Z.min (fexp PyFloat.prec PyFloat.emax (d + 0 - (7 + 0))) (0 - 0) = d - 60)
    by (unfold fexp, emin, PyFloat.prec, PyFloat.emax; lia).
  rewrite He'. replace (0 - 0 - (d - 60)) with (60 - d) by lia.
  destruct (60 - d) as [|sh|sh] eqn:Hsh; try lia.
  rewrite Z.shiftl_mul_pow2 by lia. rewrite <- Hsh.
  set (X := Zpos k * 2 ^ (60 - d)).
  assert (HX : 2 ^ 59 <= X < 2 ^ 60).
  { unfold X.
    assert (2 ^ 59 = 2 ^ (d - 1) * 2 ^ (60 - d))
      by (rewrite <- Z.pow_add_r by lia; f_equal; lia).
    assert (2 ^ 60 = 2 ^ d * 2 ^ (60 - d))
      by (rewrite <- Z.pow_add_r by lia; f_equal; lia).
    assert (0 < 2 ^ (60 - d)) by (apply Z.pow_pos_nonneg; lia). nia. }
  pose proof (Z.div_mod X 100 ltac:(lia)) as Hdm.
  pose proof (Z.mod_pos_bound X 100 ltac:(lia)) as Hmb.
  unfold Z.div, Z.modulo in Hdm, Hmb.
  destruct (Z.div_eucl X 100) as [q r]. cbn [fst snd] in Hdm, Hmb.
  rewrite xorb_false_r.
  assert (Hq52 : 2 ^ 52 <= q) by lia.
  destruct q as [|q|q]; try lia.
  assert (Hrep : half_rep 50 X 0 (shr_record_of_loc (Zpos q) (new_location 100 r))).
  { unfold half_rep, new_location, new_location_even.
    change (Z.even 100) with true. cbv iota.
    rewrite Z.pow_0_r, Z.mul_1_r. change (2 * 50) with 100.
    assert (Hq : X / 100 = Zpos q) by (symmetry; apply (Z.div_unique X 100 _ r); lia).
    assert (Hr : X mod 100 = r) by (symmetry; apply (Z.mod_unique X 100 (Zpos q)); lia).
    rewrite Hq, Hr, shr_record_of_loc_m. split; [done|].
    destruct (Z.eqb_spec r 0) as [->|Hr0].
    - cbn [shr_record_of_loc shr_r shr_s].
      assert (X mod 50 = 0) by (symmetry; apply (Z.mod_unique X 50 (2 * Zpos q)); lia).
      split; [split; [done|lia]|split; [done|lia]].
    - destruct (Z.compare_spec (2 * r) 100) as [Heq|Hlt|Hgt];
        cbn [shr_record_of_loc shr_r shr_s].
      + assert (X mod 50 = 0) by (symmetry; apply (Z.mod_unique X 50 (2 * Zpos q + 1)); lia).
        split; [split; [lia|done]|split; [done|lia]].
      + assert (X mod 50 = r) by (symmetry; apply (Z.mod_unique X 50 (2 * Zpos q)); lia).
        split; [split; [done|lia]|split; [lia|done]].
      + assert (X mod 50 = r - 50)
          by (symmetry; apply (Z.mod_unique X 50 (2 * Zpos q + 1)); lia).
        split; [split; [lia|done]|split; [lia|done]]. }
  assert (Hdig : Zpos (digits2_pos q) + (d - 60) <= 1000).
  { assert (Zpos (digits2_pos q) <= 60) by (apply digits2_pos_bound; lia). lia. }
  destruct (binary_round_aux_spec s q (d - 60) (new_location 100 r) 50 X
              ltac:(lia) ltac:(lia) ltac:(lia) Hrep (or_intror Hq52) Hdig ltac:(lia))
    as (m & e & Heq & Hle & Hm & Herr & _).
  exists m, e. split; [exact Heq|]. split; [lia|]. split; [done|].
  set (P := 2 ^ (d - 60 + 1074)).
  assert (HP : 0 < P) by (apply Z.pow_pos_nonneg; lia).
  assert (H1 : 2 ^ (e + 1074) = 2 ^ (e - (d - 60)) * P)
    by (unfold P; rewrite <- Z.pow_add_r by lia; f_equal; lia).
  assert (H2 : scale = 2 ^ (60 - d) * P)
    by (unfold P, scale; rewrite <- Z.pow_add_r by lia; f_equal; lia).
  rewrite H1, H2.
  replace (100 * (Zpos m * (2 ^ (e - (d - 60)) * P)) - Zpos k * (2 ^ (60 - d) * P))
    with ((Zpos m * 2 ^ (e - (d - 60)) * (2 * 50) - X) * P) by (unfold X; lia).
  replace (Zpos k * (2 ^ (60 - d) * P)) with (X * P) by (unfold X; lia).
  rewrite Z.abs_mul, (Z.abs_eq P) by lia.
  set (A := Z.abs _) in *. nia.
Qed.

(** * Quotients that stay finite *)

Lemma round_nearest_even_le (m : Z) (l : location) : round_nearest_even m l <= m + 1.
Proof. destruct l as [|[]]; simpl; try lia. destruct (Z.even m); lia. Qed.

Lemma Zdigits2_lt (m : Z) : 0 <= m -> m < 2 ^ Zdigits2 m.
Proof. destruct m as [|p|p]; simpl; [lia|intros _; apply digits2_pos_lt|lia]. Qed.

Lemma Zdigits2_bound (m n : Z) : 0 <= m < 2 ^ n -> 0 <= n -> Zdigits2 m <= n.
Proof.
  destruct m as [|p|p]; simpl; [lia| |lia].
  intros [_ H] Hn. by apply digits2_pos_bound.
Qed.

(** The shift of a rounding leaves fewer than 54 bits, at the exponent that
    the format gives to a number of that size. *)
Lemma shr_fexp_shape (m e : Z) (l : location) :
  0 <= m ->
  exists mrs,
    shr_fexp PyFloat.prec PyFloat.emax m e l =
      (mrs, Z.max e (Z.max (Zdigits2 m + e - 53) (-1074))) /\
    0 <= shr_m mrs < 2 ^ 53.
Proof.
  intros Hm. unfold shr_fexp, shr, fexp, emin, PyFloat.prec, PyFloat.emax.
  pose proof (Zdigits2_lt m Hm) as Hlt.
  assert (Hd : 0 <= Zdigits2 m) by (destruct m; simpl; lia).
  set (d := Zdigits2 m) in *.
  change (3 - 1024 - 53) with (-1074).
  destruct (Z.max (d + e - 53) (-1074) - e) as [|n|n] eqn:Hn.
  - exists (shr_record_of_loc m l). split; [f_equal; lia|].
    rewrite shr_record_of_loc_m. split; [done|].
    eapply Z.lt_le_trans; [exact Hlt|]. apply Z.pow_le_mono_r; lia.
  - exists (SpecFloat.iter_pos shr_1 n (shr_record_of_loc m l)).
    split; [f_equal; lia|].
    rewrite iter_shr_1_m by (by rewrite shr_record_of_loc_m).
    rewrite shr_record_of_loc_m.
    assert (H2n : 0 < 2 ^ Zpos n) by (apply Z.pow_pos_nonneg; lia).
    split; [apply Z.div_pos; lia|].
    apply Z.div_lt_upper_bound; [done|].
    rewrite <- Z.pow_add_r by lia.
    eapply Z.lt_le_trans; [exact Hlt|]. apply Z.pow_le_mono_r; lia.
  - exists (shr_record_of_loc m l). split; [f_equal; lia|].
    rewrite shr_record_of_loc_m. split; [done|].
    eapply Z.lt_le_trans; [exact Hlt|]. apply Z.pow_le_mono_r; lia.
Qed.

(** A rounding far below the overflow threshold returns a zero or a finite
    number. *)
Lemma binary_round_aux_finite (s : bool) (mx ex : Z) (lx : location) :
  0 <= mx -> ex <= 900 -> Zdigits2 mx + ex <= 1000 ->
  exists n, PyFloat.ceil (binary_round_aux PyFloat.prec PyFloat.emax s mx ex lx) = inr n.
Proof.
  intros Hmx Hex Hd. unfold binary_round_aux.
  destruct (shr_fexp_shape mx ex lx Hmx) as (mrs' & -> & Hm').
  set (e' := Z.max ex _).
  pose proof (round_nearest_even_ge (shr_m mrs') (loc_of_shr_record mrs')) as Hge.
  pose proof (round_nearest_even_le (shr_m mrs') (loc_of_shr_record mrs')) as Hle.
  set (m1 := round_nearest_even _ _) in *.
  destruct (shr_fexp_shape m1 e' loc_Exact ltac:(lia)) as (mrs'' & -> & Hm'').
  assert (Hd1 : Zdigits2 m1 <= 54) by (apply Zdigits2_bound; lia).
  destruct (shr_m mrs'') as [|p|p] eqn:Hp; [by eexists| |lia].
  assert ((Z.max e' (Z.max (Zdigits2 m1 + e' - 53) (-1074))
           <=? PyFloat.emax - PyFloat.prec) = true) as ->
    by (apply Z.leb_le; unfold PyFloat.emax, PyFloat.prec, e'; lia).
  by eexists.
Qed.

Lemma valid_exponent (s : bool) (m : positive) (e n : Z) :
  0 <= n -> Z.abs (val (S754_finite s m e)) < 2 ^ n * scale -> -1074 <= e -> e < n.
Proof.
  intros Hn Hb He. cbn [val] in Hb. rewrite abs_cond_Zopp in Hb.
  destruct (Z_lt_le_dec e n) as [|Hge]; [done|exfalso].
  assert (2 ^ (n + 1074) <= 2 ^ (e + 1074)) by (apply Z.pow_le_mono_r; lia).
  assert (Hs : 2 ^ (n + 1074) = 2 ^ n * scale)
    by (unfold scale; by rewrite Z.pow_add_r by lia).
  rewrite Hs in *. clear Hs.
  assert (0 < 2 ^ (e + 1074)) by (apply Z.pow_pos_nonneg; lia).
  rewrite Z.abs_eq in Hb by lia. nia.
Qed.

(** [math.ceil] returns on the quotient of a number of moderate size by a
    number that is not tiny. *)
Lemma ceil_div_returns (x : float) (sy : bool) (my : positive) (ey : Z) :
  valid x -> Z.abs (val x) < 2 ^ 800 * scale -> -100 <= ey ->
  exists n, PyFloat.ceil (PyFloat.div x (S754_finite sy my ey)) = inr n.
Proof.
  intros Hx Hb Hey. destruct x as [sx| | |sx mx ex]; try done; [by eexists|].
  pose proof (valid_exponent sx mx ex 800 ltac:(lia) Hb ltac:(by destruct Hx)) as Hex.
  destruct Hx as [Hex' Hmx].
  unfold PyFloat.div, SFdiv, SFdiv_core_binary.
  set (e' := Z.min _ (ex - ey)).
  assert (He' : e' <= ex - ey) by (unfold e'; lia).
  set (sh := ex - ey - e').
  assert (Hm' : 0 <= match sh with
                     | Zpos _ => Z.shiftl (Zpos mx) sh | 0 => Zpos mx | Zneg _ => 0
                     end < 2 ^ (53 + sh)).
  { destruct sh as [|p|p] eqn:Hsh; try lia.
    rewrite Z.shiftl_mul_pow2, Z.pow_add_r by lia.
    assert (0 < 2 ^ Zpos p) by (apply Z.pow_pos_nonneg; lia). nia. }
  set (m' := match sh with Zpos _ => _ | _ => _ end) in *.
  pose proof (Z.div_mod m' (Zpos my) ltac:(lia)) as Hdm.
  pose proof (Z.mod_pos_bound m' (Zpos my) ltac:(lia)) as Hmb.
  unfold Z.div, Z.modulo in Hdm, Hmb.
  destruct (Z.div_eucl m' (Zpos my)) as [q r]. cbn [fst snd] in Hdm, Hmb.
  assert (Hq : 0 <= q <= m') by nia.
  apply binary_round_aux_finite; [lia|lia|].
  assert (Zdigits2 q <= 53 + sh) by (apply Zdigits2_bound; lia).
  unfold sh in *. lia.
Qed.

(** * Amounts in hundredths *)

Lemma dec_pos (k : positive) :
  PyFloat.dec (Zpos k) 2 = PyFloat.div (S754_finite false k 0) (S754_finite false 100 0).
Proof. reflexivity. Qed.

Lemma abs_le_scale (a n : Z) :
  Z.abs a * 2 ^ 53 <= n * scale -> n <= 2 ^ 53 -> Z.abs a <= scale.
Proof. intros H Hn. pose proof scale_pos. nia. Qed.

Lemma abs_lt_half_scale (a n : Z) :
  Z.abs a * 2 ^ 53 <= n * scale -> 2 * n < 2 ^ 53 -> 2 * Z.abs a < scale.
Proof. intros H Hn. pose proof scale_pos. nia. Qed.

(** An amount of [k] hundredths is stored as a float off it by at most
    [k] parts in [2^53] of a hundredth. *)
Lemma dec_near (k : Z) : 0 <= k < 2 ^ 52 -> near (PyFloat.dec k 2) k k.
Proof.
  intros Hk. destruct k as [|k|k]; [| |lia].
  - split; [done|]. simpl. pose proof scale_pos. lia.
  - rewrite dec_pos.
    destruct (div_hundred_spec false k ltac:(lia)) as (m & e & -> & He & Hm & Herr).
    split; [split; lia|]. exact Herr.
Qed.

Lemma dec_finite (k : Z) :
  0 < k < 2 ^ 52 -> exists m e, PyFloat.dec k 2 = S754_finite false m e /\ -60 <= e.
Proof.
  intros Hk. destruct k as [|k|k]; try lia. rewrite dec_pos.
  destruct (div_hundred_spec false k ltac:(lia)) as (m & e & -> & He & _).
  by exists m, e.
Qed.

(** Errors add up under a float addition, and the rounding of the sum adds
    one part in [2^53] of the sum. *)
Lemma add_near (x y : float) (c d n m : Z) :
  near x c n -> near y d m ->
  Z.abs (c + d) < 2 ^ 53 -> n + m <= 2 ^ 53 ->
  near (PyFloat.add x y) (c + d) (n + m + Z.abs (c + d) + 1).
Proof.
  intros [Hx Hnx] [Hy Hny] Hcd Hnm. pose proof scale_pos as Hs.
  assert (Hex : Z.abs (100 * (val x + val y) - (c + d) * scale) * 2 ^ 53
                <= (n + m) * scale) by lia.
  pose proof (abs_le_scale _ _ Hex Hnm) as Hsm.
  assert (Hsum : 100 * Z.abs (val x + val y) <= (Z.abs (c + d) + 1) * scale) by nia.
  destruct (add_spec x y Hx Hy) as [Hv Herr].
  { assert (2 ^ 53 * scale < 2 ^ 900 * scale)
      by (apply Z.mul_lt_mono_pos_r; [done|by apply Z.pow_lt_mono_r]).
    nia. }
  split; [done|]. nia.
Qed.

Lemma sub_near (x y : float) (c d n m : Z) :
  near x c n -> near y d m ->
  Z.abs (c - d) < 2 ^ 53 -> n + m <= 2 ^ 53 ->
  near (PyFloat.sub x y) (c - d) (n + m + Z.abs (c - d) + 1).
Proof.
  intros [Hx Hnx] [Hy Hny] Hcd Hnm. pose proof scale_pos as Hs.
  assert (Hex : Z.abs (100 * (val x - val y) - (c - d) * scale) * 2 ^ 53
                <= (n + m) * scale) by lia.
  pose proof (abs_le_scale _ _ Hex Hnm) as Hsm.
  assert (Hsum : 100 * Z.abs (val x - val y) <= (Z.abs (c - d) + 1) * scale) by nia.
  destruct (sub_spec x y Hx Hy) as [Hv Herr].
  { assert (2 ^ 53 * scale < 2 ^ 900 * scale)
      by (apply Z.mul_lt_mono_pos_r; [done|by apply Z.pow_lt_mono_r]).
    nia. }
  split; [done|]. nia.
Qed.

(** ** Rounding to two decimals *)

Lemma div_half_even_near (a b k : Z) :
  0 < b -> 2 * Z.abs (a - k * b) < b -> PyFloat.div_half_even a b = k.
Proof.
  intros Hb H. unfold PyFloat.div_half_even.
  pose proof (Z.div_mod a b ltac:(lia)) as Hdm.
  pose proof (Z.mod_pos_bound a b Hb) as Hmb.
  set (q := a / b) in *. set (r := a mod b) in *.
  assert (Hq : q = k \/ q = k - 1) by nia.
  destruct (Z.compare_spec (2 * r) b) as [Heq|Hlt|Hgt].
  - exfalso. destruct Hq as [->| ->]; nia.
  - destruct Hq as [->| ->]; [done|nia].
  - destruct Hq as [->| ->]; [nia|lia].
Qed.

(** A float within half a hundredth of [k] hundredths has [k] as its
    nearest number of hundredths. *)
Lemma hundredths_near (m : positive) (e k : Z) :
  -1074 <= e ->
  2 * Z.abs (100 * (Zpos m * 2 ^ (e + 1074)) - k * scale) < scale ->
  PyFloat.hundredths m e = k.
Proof.
  intros He H. unfold PyFloat.hundredths.
  set (b := 2 ^ Z.max (- e) 0).
  assert (Hb : 0 < b) by (apply Z.pow_pos_nonneg; lia).
  apply div_half_even_near; [done|].
  assert (Hkey : 2 ^ (e + 1074) * b = 2 ^ Z.max e 0 * scale).
  { unfold b, scale. rewrite <- !Z.pow_add_r by lia. f_equal. lia. }
  assert (Heq : (100 * (Zpos m * 2 ^ (e + 1074)) - k * scale) * b
                = (100 * Zpos m * 2 ^ Z.max e 0 - k * b) * scale).
  { rewrite !Z.mul_sub_distr_r.
    replace (100 * (Zpos m * 2 ^ (e + 1074)) * b)
      with (100 * Zpos m * (2 ^ (e + 1074) * b)) by lia.
    rewrite Hkey. lia. }
  pose proof scale_pos as Hs.
  apply (f_equal Z.abs) in Heq. rewrite !Z.abs_mul in Heq.
  rewrite (Z.abs_eq b), (Z.abs_eq scale) in Heq by lia.
  set (A := Z.abs _) in *. set (B := Z.abs _) in *. nia.
Qed.

Lemma round2_near (x : float) (k n : Z) :
  near x k n -> 2 * n < 2 ^ 53 -> 0 < k -> PyFloat.round2 x = PyFloat.dec k 2.
Proof.
  intros [Hx Hn] Hsmall Hk. pose proof scale_pos as Hs.
  pose proof (abs_lt_half_scale _ _ Hn Hsmall) as Hhalf.
  destruct x as [s| | |s m e]; try done.
  - simpl in Hhalf. nia.
  - destruct Hx as [He Hm]. cbn [val] in Hhalf.
    assert (0 < Zpos m * 2 ^ (e + 1074))
      by (apply Z.mul_pos_pos; [lia|apply Z.pow_pos_nonneg; lia]).
    destruct s; cbn [cond_Zopp] in Hhalf; [nia|].
    cbn [PyFloat.round2]. rewrite (hundredths_near m e k He Hhalf).
    by destruct k.
Qed.

Lemma round2_near_zero (x : float) (n : Z) :
  near x 0 n -> 2 * n < 2 ^ 53 -> PyFloat.is_zero (PyFloat.round2 x) = true.
Proof.
  intros [Hx Hn] Hsmall. pose proof scale_pos as Hs.
  pose proof (abs_lt_half_scale _ _ Hn Hsmall) as Hhalf.
  destruct x as [s| | |s m e]; try done.
  destruct Hx as [He Hm]. cbn [val] in Hhalf.
  cbn [PyFloat.round2]. rewrite (hundredths_near m e 0 He); [done|].
  destruct s; cbn [cond_Zopp] in Hhalf; lia.
Qed.

(** A rounded balance that compares above zero stands for a positive
    number of hundredths. *)
Lemma round2_near_pos (x : float) (k n : Z) :
  near x k n -> 2 * n < 2 ^ 53 ->
  PyFloat.ltb PyFloat.zero (PyFloat.round2 x) = true -> 0 < k.
Proof.
  intros [Hx Hn] Hsmall Hpos. pose proof scale_pos as Hs.
  pose proof (abs_lt_half_scale _ _ Hn Hsmall) as Hhalf.
  destruct (Z_lt_le_dec 0 k) as [|Hk]; [done|exfalso].
  destruct x as [s| | |s m e]; try done.
  destruct Hx as [He Hm]. cbn [val] in Hhalf.
  assert (0 < Zpos m * 2 ^ (e + 1074))
    by (apply Z.mul_pos_pos; [lia|apply Z.pow_pos_nonneg; lia]).
  destruct s; cbn [cond_Zopp] in Hhalf.
  - cbn [PyFloat.round2] in Hpos.
    destruct (PyFloat.hundredths m e) as [|h|h]; try done.
    pose proof (binary_round_aux_sign true) as Hsign.
    unfold PyFloat.div, SFdiv in Hpos.
    destruct (SFdiv_core_binary _ _ _ _ _ _) as [[mz ez] lz].
    specialize (Hsign mz ez lz). cbn [xorb] in Hpos.
    destruct (binary_round_aux _ _ _ _ _ _) as [s'|s'| |s' m' e']; try done;
      simpl in Hsign; subst s'; done.
  - cbn [PyFloat.round2] in Hpos.
    rewrite (hundredths_near m e 0 He) in Hpos; [done|]. nia.
Qed.

(** ** Sums of stored amounts *)

Lemma fold_add_near (K : Z) (ks : list Z) :
  forall (acc : float) (c n : Z),
    Forall (fun k => 0 <= k) ks ->
    0 <= c -> c + total_cents ks <= K -> K < 2 ^ 52 ->
    n + Z.of_nat (length ks) * (2 * K + 1) <= 2 ^ 53 ->
    near acc c n ->
    near (fold_left PyFloat.add (map (fun k => PyFloat.dec k 2) ks) acc)
      (c + total_cents ks) (n + Z.of_nat (length ks) * (2 * K + 1)).
Proof.
  induction ks as [|k ks IH]; intros acc c n Hks Hc HK HK52 Hn Hacc.
  - cbn [map fold_left total_cents foldr length]. by rewrite Z.add_0_r, Z.mul_0_l, Z.add_0_r.
  - apply Forall_cons in Hks as [Hk Hks].
    assert (Hrest : 0 <= total_cents ks).
    { clear -Hks. induction Hks; cbn [total_cents foldr]; [done|].
      fold (total_cents l). lia. }
    cbn [total_cents foldr] in HK |- *. fold (total_cents ks) in HK |- *.
    cbn [map fold_left]. cbn [length] in Hn |- *.
    rewrite Nat2Z.inj_succ in Hn |- *.
    pose proof (add_near acc (PyFloat.dec k 2) c k n k Hacc (dec_near k ltac:(lia))
                  ltac:(lia) ltac:(nia)) as Hstep.
    assert (Hstep' : near (PyFloat.add acc (PyFloat.dec k 2)) (c + k)
                       (n + (2 * K + 1))).
    { destruct Hstep as [Hv Hb]. split; [done|].
      pose proof scale_pos. etrans; [exact Hb|]. apply Z.mul_le_mono_nonneg_r; lia. }
    pose proof (IH _ (c + k) (n + (2 * K + 1)) Hks ltac:(lia) ltac:(lia) HK52
                  ltac:(nia) Hstep') as Hfin.
    replace (c + (k + total_cents ks)) with (c + k + total_cents ks) by lia.
    replace (n + Z.succ (Z.of_nat (length ks)) * (2 * K + 1))
      with (n + (2 * K + 1) + Z.of_nat (length ks) * (2 * K + 1)) by lia.
    exact Hfin.
Qed.

Lemma sum_near (K : Z) (ks : list Z) :
  Forall (fun k => 0 <= k) ks ->
  total_cents ks <= K -> K < 2 ^ 52 ->
  Z.of_nat (length ks) * (2 * K + 1) <= 2 ^ 53 ->
  near (PyFloat.sum (map (fun k => PyFloat.dec k 2) ks))
    (total_cents ks) (Z.of_nat (length ks) * (2 * K + 1)).
Proof.
  intros Hks HK HK52 Hn.
  by apply (fold_add_near K ks PyFloat.zero 0 0).
Qed.

(** Every amount that [round(x, 2)] returns on a finite [x >= 0] is the
    float of a whole number of hundredths. *)
Lemma round2_is_dec (m : positive) (e : Z) :
  0 <= PyFloat.hundredths m e /\
  PyFloat.round2 (S754_finite false m e) = PyFloat.dec (PyFloat.hundredths m e) 2.
Proof.
  assert (Hh : 0 <= PyFloat.hundredths m e).
  { unfold PyFloat.hundredths, PyFloat.div_half_even.
    set (a := 100 * Zpos m * 2 ^ Z.max e 0). set (b := 2 ^ Z.max (- e) 0).
    assert (0 < b) by (apply Z.pow_pos_nonneg; lia).
    assert (0 <= a) by (apply Z.mul_nonneg_nonneg; [lia|apply Z.pow_nonneg; lia]).
    assert (0 <= a / b) by (apply Z.div_pos; lia).
    destruct (2 * (a mod b) ?= b); [destruct (Z.even (a / b))| |]; lia. }
  split; [done|]. cbn [PyFloat.round2].
  by destruct (PyFloat.hundredths m e).
Qed.

(** * Loan origination *)

Lemma load_data_eq (f : file) : load_data f = (inr (dataset_of f), f).
Proof. by destruct f. Qed.

Lemma truediv_hundred (r : float) :
  PyFloat.truediv r hundred = inr (PyFloat.div r hundred).
Proof. reflexivity. Qed.

Lemma truthy_Some (s : string) : s <> "" -> truthy (Some s) = true.
Proof.
  intros Hs. simpl. destruct (String.eqb_spec s ""); [done|reflexivity].
Qed.

(** C1, as amended: a request that passes the validation of [lend_money]
    (customer id not empty, amount > 0, years > 0, and rate/100 > 0 once
    divided in floating point) and whose [years] and [years * 12] convert
    to float creates a loan that stores [round(interest, 2)],
    [round(amount + interest, 2)] and [round((amount + interest) / (years * 12), 2)]
    for the unrounded [interest = amount * years * (rate / 100)], and the
    response reports the stored total and EMI under the next loan id. *)
Theorem lend_money_terms (cid : string) (a r : float) (y : Z) (f : file)
    (yf y12 : float) :
  cid <> "" ->
  PyFloat.ltb PyFloat.zero a = true ->
  0 < y ->
  PyFloat.ltb PyFloat.zero (PyFloat.div r hundred) = true ->
  PyFloat.of_int y = inr yf ->
  PyFloat.of_int (y * 12) = inr y12 ->
  let rate := PyFloat.div r hundred in
  let interest := PyFloat.mul (PyFloat.mul a yf) rate in
  let total := PyFloat.add a interest in
  let emi := PyFloat.div total y12 in
  let data := dataset_of f in
  let loan_id := str (next_loan_id data) in
  let loan := new_loan cid a y rate interest total emi in
  let data' :=
    {| loans := <[loan_id := loan]> (loans data);
       customers := register_loan cid loan_id (customers data);
       next_loan_id := next_loan_id data + 1 |} in
  lend_money (lend cid a y r) f =
    (inr (LoanApproved loan_id "Loan approved successfully."
            (PyFloat.round2 total) (PyFloat.round2 emi), 201), Some data')
  /\ loans data' !! loan_id = Some loan
  /\ total_interest loan = PyFloat.round2 interest
  /\ total_amount loan = PyFloat.round2 total
  /\ emi_amount loan = PyFloat.round2 emi.
Proof.
  intros Hcid Ha Hy Hr Hyf Hy12. cbv zeta.
  split; [|split; [apply lookup_insert_eq|done]].
  assert (Hnz : PyFloat.is_zero y12 = false) by (apply (of_int_pos (y * 12)); [lia|done]).
  unfold lend_money, bind, lift, ret, lend. cbn [lend_customer_id lend_amount lend_years lend_rate py_float py_int exn_bind].
  rewrite truediv_hundred, truthy_Some, Ha, Hr by done.
  assert ((0 <? y) = true) as -> by lia. cbn [andb negb].
  rewrite Hyf, Hy12. cbn [exn_bind]. unfold PyFloat.truediv. rewrite Hnz.
  rewrite load_data_eq. reflexivity.
Qed.

(** The request of the specification's example: 1200 at 10% over one year
    is answered with loan id "1", total 1320 and EMI 110. *)
Lemma lend_money_terms_witness :
  fst (lend_money (lend "c1" (PyFloat.dec 1200 0) 1 (PyFloat.dec 10 0)) None) =
  inr (LoanApproved "1" "Loan approved successfully."
         (PyFloat.dec 1320 0) (PyFloat.dec 110 0), 201).
Proof.
  pose proof (lend_money_terms "c1" (PyFloat.dec 1200 0) (PyFloat.dec 10 0) 1 None
                (PyFloat.dec 1 0) (PyFloat.dec 12 0)
                ltac:(discriminate) eq_refl ltac:(lia) eq_refl eq_refl eq_refl) as [H _].
  rewrite H. vm_compute. reflexivity.
Defined.

(** C1 as stated fails: a rate that is positive but so small that
    rate/100 underflows to zero is rejected, and no loan is created. *)
Lemma lend_money_tiny_rate_rejected :
  let r := PyFloat.dec 5 324 in
  "c1"%string <> ""%string /\
  PyFloat.ltb PyFloat.zero (PyFloat.dec 1200 0) = true /\
  0 < 1 /\
  PyFloat.ltb PyFloat.zero r = true /\
  lend_money (lend "c1" (PyFloat.dec 1200 0) 1 r) None =
    (inr (Error "Invalid or missing parameters.", 400), None).
Proof. cbv zeta. split; [discriminate|]. compute_each. Qed.

(** A number of years too large for a float makes the handler raise. *)
Lemma lend_money_huge_years_raises :
  lend_money (lend "c1" (PyFloat.dec 1200 0) (2 ^ 1024) (PyFloat.dec 10 0)) None =
    (inl OverflowError, None).
Proof. vm_compute. reflexivity. Qed.

(** What [lend_money] does with a request that its validation is meant to
    turn down: the data file is never touched, the answer is 400 when the
    three numbers are present, and the conversion of a missing number
    raises [TypeError] before the validation is reached. *)
Lemma lend_money_invalid (req : LendRequest) (f : file) :
  truthy (lend_customer_id req) = false \/
  (forall a, lend_amount req = Some a -> PyFloat.ltb PyFloat.zero a = false) \/
  (forall y, lend_years req = Some y -> y <= 0) \/
  (forall r, lend_rate req = Some r ->
             PyFloat.ltb PyFloat.zero (PyFloat.div r hundred) = false) ->
  lend_money req f =
    (match lend_amount req, lend_years req, lend_rate req with
     | Some _, Some _, Some _ => inr (Error "Invalid or missing parameters.", 400)
     | _, _, _ => inl TypeError
     end, f).
Proof.
  intros H. destruct req as [cid [a|] [y|] [r|]]; try reflexivity.
  unfold lend_money, bind, lift, ret. cbn -[hundred PyFloat.truediv] in *.
  rewrite truediv_hundred. cbn [exn_bind].
  assert (truthy cid && PyFloat.ltb PyFloat.zero a && (0 <? y)
          && PyFloat.ltb PyFloat.zero (PyFloat.div r hundred) = false) as ->; [|done].
  destruct H as [->|[H|[H|H]]]; [done|..].
  - rewrite (H a eq_refl). by rewrite andb_false_r.
  - assert ((0 <? y) = false) as -> by (specialize (H y eq_refl); lia).
    by rewrite andb_false_r.
  - rewrite (H r eq_refl). by rewrite andb_false_r.
Qed.

(** C6, the failing input: a body without [amount] does not get the 400
    answer that the handler's own message promises for missing parameters;
    [float(None)] raises [TypeError] first.  The data file is left as it was. *)
Theorem lend_money_missing_amount_raises (cid : option string) (y : option Z)
    (r : option float) (f : file) :
  lend_money {| lend_customer_id := cid; lend_amount := None;
                lend_years := y; lend_rate := r |} f = (inl TypeError, f).
Proof. reflexivity. Qed.

(** * The ledger calculator *)

(** [math.ceil] on a finite float [num / den] is the least integer that
    is not below it. *)
Lemma ceil_spec (s : bool) (m : positive) (e n : Z) :
  PyFloat.ceil (S754_finite s m e) = inr n ->
  let num := cond_Zopp s (Zpos m * 2 ^ Z.max e 0) in
  let den := 2 ^ Z.max (- e) 0 in
  (n - 1) * den < num <= n * den.
Proof.
  simpl. intros [= <-].
  set (num := cond_Zopp s _). set (den := 2 ^ _).
  assert (Hden : 0 < den) by (apply Z.pow_pos_nonneg; lia).
  pose proof (Z.div_mod (- num) den ltac:(lia)) as Hdm.
  pose proof (Z.mod_pos_bound (- num) den Hden) as Hb.
  nia.
Qed.

Lemma get_loan_details_None (data : Dataset) (loan_id : string) :
  loans data !! loan_id = None -> get_loan_details loan_id data = inr None.
Proof. intros H. unfold get_loan_details. by rewrite H. Qed.

Lemma get_loan_details_Some (data : Dataset) (loan_id : string) (det : Details) :
  get_loan_details loan_id data = inr (Some det) ->
  exists loan, loans data !! loan_id = Some loan /\
    d_balance_amount det =
      PyFloat.round2 (PyFloat.sub (total_amount loan)
                        (PyFloat.sum (map amount (payments loan)))).
Proof.
  unfold get_loan_details.
  destruct (loans data !! loan_id) as [loan|]; [|done].
  destruct (if PyFloat.ltb _ _ then _ else _) as [e|n]; cbn [exn_bind]; [done|].
  intros [= <-]. by exists loan.
Qed.

Lemma get_loan_details_found (data : Dataset) (loan_id : string) (loan : Loan) :
  loans data !! loan_id = Some loan -> get_loan_details loan_id data <> inr None.
Proof.
  intros Hloan. unfold get_loan_details. rewrite Hloan.
  by destruct (if PyFloat.ltb _ _ then _ else _) as [e|n].
Qed.

(** What the calculator computes for the instalments left: with
    [balance = total_amount - sum(payments)] before it is rounded,
    [get_loan_details] returns [max(0, ceil(balance / emi_amount))] when
    [emi_amount > 0] and [0] otherwise, never a negative number, and [0]
    whenever that unrounded [balance <= 0]; it raises exactly when
    [emi_amount > 0] and [math.ceil] raises on the quotient.  The reported
    [balance_amount] is [round(balance, 2)]. *)
Lemma emis_left_spec (data : Dataset) (loan_id : string) (loan : Loan) :
  loans data !! loan_id = Some loan ->
  let balance :=
    PyFloat.sub (total_amount loan) (PyFloat.sum (map amount (payments loan))) in
  let emi := emi_amount loan in
  match get_loan_details loan_id data with
  | inr (Some det) =>
      d_balance_amount det = PyFloat.round2 balance /\
      0 <= d_emis_left det /\
      (PyFloat.leb balance PyFloat.zero = true -> d_emis_left det = 0) /\
      (if PyFloat.ltb PyFloat.zero emi
       then exists n, PyFloat.ceil (PyFloat.div balance emi) = inr n /\
                      d_emis_left det = Z.max 0 n
       else d_emis_left det = 0)
  | inr None => False
  | inl e =>
      PyFloat.ltb PyFloat.zero emi = true /\
      PyFloat.ceil (PyFloat.div balance emi) = inl e
  end.
Proof.
  intros Hloan balance emi. unfold get_loan_details. rewrite Hloan.
  fold balance. fold emi.
  destruct (PyFloat.ltb PyFloat.zero emi) eqn:Hemi; cbn [exn_bind].
  - unfold PyFloat.truediv. rewrite (ltb_zero_not_is_zero _ Hemi). cbn [exn_bind].
    destruct (PyFloat.ceil (PyFloat.div balance emi)) as [e|n] eqn:Hceil;
      cbn [exn_bind]; [done|].
    cbn [d_balance_amount d_emis_left].
    repeat split; [lia| |by exists n].
    intros Hb.
    pose proof (ceil_nonpos _ n (div_sign _ _ Hb Hemi) Hceil). lia.
  - cbn [d_balance_amount d_emis_left]. done.
Qed.

(** A loan of 1320 with instalments of 110 and one payment of 110 has
    eleven instalments left. *)
Lemma emis_left_spec_example :
  let loan := add_payment
                (new_loan "c1" (PyFloat.dec 1200 0) 1 (PyFloat.dec 1 1)
                   (PyFloat.dec 120 0) (PyFloat.dec 1320 0) (PyFloat.dec 110 0))
                {| amount := PyFloat.dec 110 0; date := t1 |} in
  let data := {| loans := {[ "1"%string := loan ]}; customers := ∅; next_loan_id := 2 |} in
  exists det, get_loan_details "1" data = inr (Some det) /\ d_emis_left det = 11.
Proof.
  intros loan data.
  pose proof (emis_left_spec data "1" loan eq_refl) as H. cbv zeta in H.
  eassert (Hd : get_loan_details "1" data = inr (Some _))
    by (vm_compute; reflexivity).
  rewrite Hd in H. eexists. split; [exact Hd|].
  destruct H as (_ & _ & _ & H).
  change (PyFloat.ltb PyFloat.zero (emi_amount loan)) with true in H.
  destruct H as (n & Hn & ->). vm_compute in Hn.
  injection Hn as <-. reflexivity.
Qed.

(** C5, where the code departs from it: [emis_left] is taken from the
    balance before rounding, [balance_amount] is reported after rounding.
    A loan of 0.8 (0.4 lent for one year at 100 percent) is paid with 0.7
    and then 0.1; the float sum of the two payments is just below 0.8.  The
    ledger then reports [balance_amount = 0.0], which is [<= 0], together
    with [emis_left = 1], and [make_payment] answers a further payment on
    the same loan with "already fully paid". *)
Lemma emis_left_positive_at_zero_balance :
  let f := after [PostLend (lend "c1" (PyFloat.dec 4 1) 1 (PyFloat.dec 100 0));
                  PostPayment (pay "1" (PyFloat.dec 7 1)) t1;
                  PostPayment (pay "1" (PyFloat.dec 1 1)) t2] in
  exists det,
    get_loan_details "1" (dataset_of f) = inr (Some det) /\
    d_balance_amount det = PyFloat.zero /\
    PyFloat.leb (d_balance_amount det) PyFloat.zero = true /\
    PyFloat.ltb PyFloat.zero (d_emi_amount det) = true /\
    d_emis_left det = 1 /\
    make_payment (pay "1" (PyFloat.dec 5 0)) t2 f =
      (inr (Message "This loan is already fully paid.", 200), f).
Proof. cbv zeta. eexists. compute_each. Qed.

(** * The payment recorder *)

(** [make_payment] on a request that passes its validation, for a loan
    that exists and whose details could be computed. *)
Lemma make_payment_eval (loan_id : string) (amt : float) (now : string) (f : file)
    (loan : Loan) (det : Details) :
  loan_id <> "" ->
  PyFloat.leb amt PyFloat.zero = false ->
  loans (dataset_of f) !! loan_id = Some loan ->
  get_loan_details loan_id (dataset_of f) = inr (Some det) ->
  make_payment (pay loan_id amt) now f =
    if PyFloat.leb (d_balance_amount det) PyFloat.zero
    then (inr (Message "This loan is already fully paid.", 200), f)
    else
      let a := if PyFloat.ltb (d_balance_amount det) amt
               then d_balance_amount det else amt in
      (inr (PaymentRecorded "Payment recorded successfully." loan_id a, 200),
       Some (with_payment (dataset_of f) loan_id loan
               {| amount := PyFloat.round2 a; date := now |})).
Proof.
  intros Hid Hamt Hloan Hdet.
  unfold make_payment, bind, lift, ret, pay.
  cbn [pay_loan_id pay_amount py_float]. rewrite truthy_Some, Hamt by done.
  cbn [negb orb from_option id]. rewrite load_data_eq. cbv beta iota.
  rewrite Hloan, Hdet. cbv beta iota.
  by destruct (PyFloat.leb (d_balance_amount det) PyFloat.zero).
Qed.

(** C3: paying any positive amount on an existing loan whose computed
    balance is not positive appends nothing, leaves the data file as it
    was, and is answered 200 with the "already fully paid" message. *)
Theorem make_payment_fully_paid (loan_id : string) (amt : float) (now : string)
    (f : file) (det : Details) :
  loan_id <> "" ->
  PyFloat.ltb PyFloat.zero amt = true ->
  get_loan_details loan_id (dataset_of f) = inr (Some det) ->
  PyFloat.leb (d_balance_amount det) PyFloat.zero = true ->
  make_payment (pay loan_id amt) now f =
    (inr (Message "This loan is already fully paid.", 200), f).
Proof.
  intros Hid Hamt Hdet Hbal.
  destruct (get_loan_details_Some _ _ _ Hdet) as (loan & Hloan & _).
  rewrite (make_payment_eval loan_id amt now f loan det) by auto using ltb_zero_not_leb.
  by rewrite Hbal.
Qed.

(** The loan of the specification's example, repaid in full by a payment
    of 2000, answers a further payment of 5 with "already fully paid". *)
Lemma make_payment_fully_paid_witness :
  let f := after [PostLend (lend "c1" (PyFloat.dec 1200 0) 1 (PyFloat.dec 10 0));
                  PostPayment (pay "1" (PyFloat.dec 2000 0)) t1] in
  make_payment (pay "1" (PyFloat.dec 5 0)) t2 f =
    (inr (Message "This loan is already fully paid.", 200), f).
Proof.
  intros f.
  eapply (make_payment_fully_paid "1" (PyFloat.dec 5 0) t2 f);
    [discriminate|reflexivity|vm_compute; reflexivity|vm_compute; reflexivity].
Defined.

Lemma total_cents_app (ks ks' : list Z) :
  total_cents (ks ++ ks') = total_cents ks + total_cents ks'.
Proof.
  induction ks as [|k ks IH]; [done|].
  cbn [app total_cents foldr]. fold (total_cents (ks ++ ks')). fold (total_cents ks). lia.
Qed.

Lemma total_cents_nonneg (ks : list Z) :
  Forall (fun k => 0 <= k) ks -> 0 <= total_cents ks.
Proof.
  induction 1 as [|k ks Hk _ IH]; [done|].
  cbn [total_cents foldr]. fold (total_cents ks). lia.
Qed.

(** The calculator returns whenever [math.ceil] returns on the quotient
    that it takes when the instalment is positive. *)
Lemma get_loan_details_returns (data : Dataset) (loan_id : string) (loan : Loan) :
  loans data !! loan_id = Some loan ->
  let balance :=
    PyFloat.sub (total_amount loan) (PyFloat.sum (map amount (payments loan))) in
  (PyFloat.ltb PyFloat.zero (emi_amount loan) = true ->
   exists n, PyFloat.ceil (PyFloat.div balance (emi_amount loan)) = inr n) ->
  exists det, get_loan_details loan_id data = inr (Some det) /\
              d_balance_amount det = PyFloat.round2 balance.
Proof.
  intros Hloan balance Hceil. unfold get_loan_details. rewrite Hloan. fold balance.
  destruct (PyFloat.ltb PyFloat.zero (emi_amount loan)) eqn:Hemi; cbn [exn_bind].
  - unfold PyFloat.truediv. rewrite (ltb_zero_not_is_zero _ Hemi). cbn [exn_bind].
    destruct (Hceil eq_refl) as [n ->]. cbn [exn_bind]. by eexists.
  - by eexists.
Qed.

(** C2, as amended: for amounts that are whole hundredths, as every amount
    is that [round(x, 2)] returns ([round2_is_dec]).  Take a loan whose
    total is the float of [K] hundredths, whose instalment is the float of
    [E] hundredths and whose [n] payments so far are the floats of [ks]
    hundredths, with [sum ks <= K] and [(n + 2) * (2 * K + 1) < 2^52]; this
    holds, for instance, for every total up to [10^9] with up to 20000
    payments.  When the ledger's balance [b] is positive and the request
    pays more than [b], then [b] is the float of [K - sum ks] hundredths,
    the answer reports [b], the payment appended to the loan has amount
    exactly [b], nothing else in the dataset changes, and the ledger
    computed on the new dataset returns with a balance that is zero. *)
Theorem overpayment_clears_balance (loan_id : string) (amt : float) (now : string)
    (f : file) (loan : Loan) (det : Details) (K E : Z) (ks : list Z) :
  loan_id <> "" ->
  loans (dataset_of f) !! loan_id = Some loan ->
  total_amount loan = PyFloat.dec K 2 ->
  emi_amount loan = PyFloat.dec E 2 ->
  map amount (payments loan) = map (fun k => PyFloat.dec k 2) ks ->
  Forall (fun k => 0 <= k) ks ->
  total_cents ks <= K ->
  0 <= E <= K ->
  (Z.of_nat (length ks) + 2) * (2 * K + 1) < 2 ^ 52 ->
  get_loan_details loan_id (dataset_of f) = inr (Some det) ->
  PyFloat.ltb PyFloat.zero (d_balance_amount det) = true ->
  PyFloat.ltb (d_balance_amount det) amt = true ->
  let b := d_balance_amount det in
  let payment_record := {| amount := b; date := now |} in
  let data' := with_payment (dataset_of f) loan_id loan payment_record in
  b = PyFloat.dec (K - total_cents ks) 2 /\
  make_payment (pay loan_id amt) now f =
    (inr (PaymentRecorded "Payment recorded successfully." loan_id b, 200), Some data') /\
  loans data' !! loan_id = Some (add_payment loan payment_record) /\
  exists det', get_loan_details loan_id data' = inr (Some det') /\
               PyFloat.is_zero (d_balance_amount det') = true /\
               PyFloat.eqb (d_balance_amount det') PyFloat.zero = true.
Proof.
  intros Hid Hloan HT HE Hpays Hks Hsum HEK Hsize Hdet Hpos Hover b payment_record data'.
  set (n := Z.of_nat (length ks)) in *.
  assert (Hn : 0 <= n) by (unfold n; lia).
  assert (HK52 : K < 2 ^ 52) by nia.
  pose proof (total_cents_nonneg ks Hks) as Hsum0.
  set (c := total_cents ks) in *.
  (* the balance before the payment *)
  destruct (get_loan_details_Some _ _ _ Hdet) as (loan' & Hloan' & Hb).
  rewrite Hloan in Hloan'. injection Hloan' as <-.
  fold b in Hb, Hpos, Hover. rewrite HT, Hpays in Hb.
  pose proof (dec_near K ltac:(lia)) as HnT.
  pose proof (sum_near K ks Hks Hsum HK52 ltac:(fold n; nia)) as HnS. fold n c in HnS.
  pose proof (sub_near _ _ _ _ _ _ HnT HnS ltac:(lia) ltac:(nia)) as HnB.
  set (N1 := K + n * (2 * K + 1) + Z.abs (K - c) + 1) in *.
  assert (HN1 : 2 * N1 < 2 ^ 53) by (unfold N1; nia).
  rewrite Hb in Hpos.
  pose proof (round2_near_pos _ _ _ HnB HN1 Hpos) as Hk.
  rewrite <- Hb in Hpos.
  assert (Hbk : b = PyFloat.dec (K - c) 2) by (rewrite Hb; by apply (round2_near _ _ N1)).
  assert (Hround : PyFloat.round2 b = b).
  { rewrite Hbk at 2. rewrite Hbk.
    apply (round2_near _ _ (K - c)); [apply dec_near; lia|lia|done]. }
  assert (Hlook : loans data' !! loan_id = Some (add_payment loan payment_record))
    by apply lookup_insert_eq.
  split; [exact Hbk|]. split; [|split; [exact Hlook|]].
  { rewrite (make_payment_eval loan_id amt now f loan det); try done.
    - fold b. rewrite (ltb_zero_not_leb _ Hpos), Hover. cbv zeta. by rewrite Hround.
    - apply ltb_zero_not_leb. by apply (ltb_zero_trans b). }
  (* the balance after the payment *)
  assert (Hpays' : map amount (payments (add_payment loan payment_record))
                   = map (fun k => PyFloat.dec k 2) (ks ++ [K - c])).
  { cbn [add_payment payments]. rewrite !map_app, Hpays. cbn [map amount payment_record].
    by rewrite Hbk. }
  assert (Hks' : Forall (fun k => 0 <= k) (ks ++ [K - c])).
  { apply Forall_app. split; [done|]. apply Forall_cons. split; [lia|done]. }
  assert (Hc' : total_cents (ks ++ [K - c]) = K).
  { rewrite total_cents_app. fold c. cbn [total_cents foldr]. lia. }
  assert (Hlen : Z.of_nat (length (ks ++ [K - c])) = n + 1).
  { rewrite length_app. cbn [length]. unfold n. lia. }
  pose proof (sum_near K (ks ++ [K - c]) Hks' ltac:(lia) HK52 ltac:(rewrite Hlen; nia))
    as HnS'.
  rewrite Hc', Hlen in HnS'.
  pose proof (sub_near _ _ _ _ _ _ HnT HnS' ltac:(lia) ltac:(nia)) as HnR.
  rewrite Z.sub_diag in HnR. change (Z.abs 0) with 0 in HnR.
  set (N2 := K + (n + 1) * (2 * K + 1) + 0 + 1) in *.
  assert (HN2 : 2 * N2 < 2 ^ 53) by (unfold N2; nia).
  set (residue := PyFloat.sub (PyFloat.dec K 2)
                    (PyFloat.sum (map (fun k => PyFloat.dec k 2) (ks ++ [K - c])))) in *.
  destruct (get_loan_details_returns data' loan_id _ Hlook) as (det' & Hdet' & Hb').
  { rewrite Hpays'. cbn [add_payment total_amount emi_amount]. rewrite HT, HE.
    fold residue. intros Hemi.
    assert (HE0 : 0 < E) by (destruct (Z.eq_dec E 0) as [->|]; [done|lia]).
    destruct (dec_finite E ltac:(lia)) as (me & ee & -> & Hee).
    apply ceil_div_returns; [by destruct HnR| |lia].
    destruct HnR as [_ HR]. rewrite Z.mul_0_l, Z.sub_0_r in HR.
    pose proof (abs_le_scale _ _ HR ltac:(lia)) as Hsmall.
    pose proof scale_pos.
    assert (scale < 2 ^ 800 * scale) by (assert (1 < 2 ^ 800) by done; nia).
    lia. }
  rewrite Hpays' in Hb'. cbn [add_payment total_amount] in Hb'. rewrite HT in Hb'.
  fold residue in Hb'.
  pose proof (round2_near_zero _ _ HnR HN2) as Hz. rewrite <- Hb' in Hz.
  exists det'. split; [exact Hdet'|]. split; [exact Hz|].
  by destruct (d_balance_amount det') as [[]| | |].
Qed.

(** A loan of 0.8 on which 0.7 was paid: a payment of 5 is recorded as
    0.1, and the ledger then shows a balance of zero. *)
Lemma overpayment_clears_balance_witness :
  let f := after [PostLend (lend "c1" (PyFloat.dec 4 1) 1 (PyFloat.dec 100 0));
                  PostPayment (pay "1" (PyFloat.dec 7 1)) t1] in
  let r := make_payment (pay "1" (PyFloat.dec 5 0)) t2 f in
  exists det',
    fst r = inr (PaymentRecorded "Payment recorded successfully." "1"
                   (PyFloat.dec 10 2), 200) /\
    get_loan_details "1" (dataset_of (snd r)) = inr (Some det') /\
    PyFloat.is_zero (d_balance_amount det') = true.
Proof.
  intros f r.
  eassert (Hloan : loans (dataset_of f) !! "1"%string = Some _)
    by (vm_compute; reflexivity).
  eassert (Hdet : get_loan_details "1" (dataset_of f) = inr (Some _))
    by (vm_compute; reflexivity).
  destruct (overpayment_clears_balance "1" (PyFloat.dec 5 0) t2 f _ _ 80 7 [70]
              ltac:(discriminate) Hloan
              ltac:(vm_compute; reflexivity) ltac:(vm_compute; reflexivity)
              ltac:(vm_compute; reflexivity)
              ltac:(repeat constructor; lia) ltac:(vm_compute; discriminate)
              ltac:(lia) ltac:(vm_compute; reflexivity) Hdet
              ltac:(vm_compute; reflexivity) ltac:(vm_compute; reflexivity))
    as (Hb & Hmp & _ & det' & Hdet' & Hz & _).
  exists det'. unfold r. rewrite Hmp. cbn [fst snd dataset_of].
  split; [|split; [exact Hdet'|exact Hz]].
  rewrite Hb. reflexivity.
Defined.

(** C2 as stated fails for very large amounts: a loan of 2^53 + 2 on which
    1 was paid has a computed balance of 2^53; a payment of 1e17 is capped
    and recorded as 2^53, and the ledger then computes a balance of 2, not 0.
    Here [K = 100 * (2^53 + 2)] is beyond the bound of the theorem above. *)
Lemma make_payment_overpay_leaves_balance :
  let f := after [PostLend (lend "c1" (PyFloat.dec 4503599627370497 0) 1 (PyFloat.dec 100 0));
                  PostPayment (pay "1" (PyFloat.dec 1 0)) t1] in
  let f' := snd (make_payment (pay "1" (PyFloat.dec (10 ^ 17) 0)) t2 f) in
  exists det det',
    get_loan_details "1" (dataset_of f) = inr (Some det) /\
    d_balance_amount det = PyFloat.dec (2 ^ 53) 0 /\
    PyFloat.ltb (d_balance_amount det) (PyFloat.dec (10 ^ 17) 0) = true /\
    (payments <$> loans (dataset_of f') !! "1"%string) =
      Some [ {| amount := PyFloat.dec 1 0; date := t1 |};
             {| amount := PyFloat.dec (2 ^ 53) 0; date := t2 |} ] /\
    get_loan_details "1" (dataset_of f') = inr (Some det') /\
    d_balance_amount det' = PyFloat.dec 2 0 /\
    PyFloat.eqb (d_balance_amount det') PyFloat.zero = false.
Proof. cbv zeta. do 2 eexists. compute_each. Qed.

(** Whenever [make_payment] answers that a payment was recorded, the
    [amount_paid] of the answer is the amount after the cap and before
    rounding, and the payment appended to the loan stores
    [round(amount_paid, 2)]. *)
Lemma make_payment_amount_paid (req : PaymentRequest) (now : string) (f f' : file)
    (msg loan_id : string) (a : float) (status : Z) :
  make_payment req now f = (inr (PaymentRecorded msg loan_id a, status), f') ->
  exists loan det amt,
    pay_loan_id req = Some loan_id /\
    pay_amount req = Some amt /\
    loans (dataset_of f) !! loan_id = Some loan /\
    get_loan_details loan_id (dataset_of f) = inr (Some det) /\
    a = (if PyFloat.ltb (d_balance_amount det) amt
         then d_balance_amount det else amt) /\
    status = 200 /\
    f' = Some (with_payment (dataset_of f) loan_id loan
                 {| amount := PyFloat.round2 a; date := now |}) /\
    loans (dataset_of f') !! loan_id =
      Some (add_payment loan {| amount := PyFloat.round2 a; date := now |}).
Proof.
  destruct req as [[lid|] [amt|]]; try done.
  unfold make_payment, bind, lift, ret.
  cbn [pay_loan_id pay_amount py_float from_option id].
  destruct (negb (truthy (Some lid)) || PyFloat.leb amt PyFloat.zero); [done|].
  rewrite load_data_eq. cbv beta iota.
  destruct (loans (dataset_of f) !! lid) as [loan|] eqn:Hloan; [|done].
  destruct (get_loan_details lid (dataset_of f)) as [e|[det|]] eqn:Hdet; try done.
  cbv beta iota.
  destruct (PyFloat.leb (d_balance_amount det) PyFloat.zero); [done|].
  cbn. intros [= <- <- <- <- <-].
  exists loan, det, amt. repeat split; try done.
  cbn. apply lookup_insert_eq.
Qed.

(** A payment of 110 on the loan of 1320 is reported and stored as 110. *)
Lemma make_payment_amount_paid_example :
  let f := after [PostLend (lend "c1" (PyFloat.dec 1200 0) 1 (PyFloat.dec 10 0))] in
  (payments <$> loans (dataset_of (snd (make_payment (pay "1" (PyFloat.dec 110 0)) t1 f)))
                  !! "1"%string) =
    Some [ {| amount := PyFloat.dec 110 0; date := t1 |} ].
Proof.
  intros f.
  eassert (Hr : make_payment (pay "1" (PyFloat.dec 110 0)) t1 f =
                (inr (PaymentRecorded _ _ _, _), _)) by (vm_compute; reflexivity).
  destruct (make_payment_amount_paid _ _ _ _ _ _ _ _ Hr)
    as (loan & det & amt & _ & _ & Hloan & _ & _ & _ & _ & Hstored).
  rewrite Hr. cbn [snd]. rewrite Hstored.
  vm_compute in Hloan. injection Hloan as <-. vm_compute. reflexivity.
Qed.

(** C7, where the code departs from it: the answer carries the amount
    before rounding, the record the amount after rounding.  On the loan of
    1320 a payment of 100.004 is answered [amount_paid = 100.004] and stored
    as 100.0; a payment of 0.004 is answered [amount_paid = 0.004] with
    "Payment recorded successfully." and stored as 0.0, which is not a
    positive amount. *)
Lemma make_payment_reports_unrounded :
  let f := after [PostLend (lend "c1" (PyFloat.dec 1200 0) 1 (PyFloat.dec 10 0))] in
  let r := make_payment (pay "1" (PyFloat.dec 100004 3)) t1 f in
  let r' := make_payment (pay "1" (PyFloat.dec 4 3)) t1 f in
  fst r = inr (PaymentRecorded "Payment recorded successfully." "1"
                 (PyFloat.dec 100004 3), 200) /\
  (payments <$> loans (dataset_of (snd r)) !! "1"%string) =
    Some [ {| amount := PyFloat.dec 100 0; date := t1 |} ] /\
  PyFloat.eqb (PyFloat.dec 100004 3) (PyFloat.dec 100 0) = false /\
  fst r' = inr (PaymentRecorded "Payment recorded successfully." "1"
                  (PyFloat.dec 4 3), 200) /\
  (payments <$> loans (dataset_of (snd r')) !! "1"%string) =
    Some [ {| amount := PyFloat.zero; date := t1 |} ] /\
  PyFloat.ltb PyFloat.zero (PyFloat.dec 4 3) = true.
Proof. cbv zeta. compute_each. Qed.

(** * One request at a time *)

Lemma str_inj (n m : Z) : str n = str m -> n = m.
Proof. apply (inj pretty). Qed.

Lemma register_loan_lookup (cid id : string) (cs : gmap string Customer) :
  register_loan cid id cs !! cid =
    Some {| loan_ids := from_option loan_ids [] (cs !! cid) ++ [id] |}.
Proof.
  unfold register_loan. destruct (cs !! cid) as [c|] eqn:Hc.
  - by rewrite lookup_alter_eq, Hc.
  - by rewrite lookup_alter_eq, lookup_insert_eq.
Qed.

Lemma register_loan_lookup_ne (cid cid' id : string) (cs : gmap string Customer) :
  cid <> cid' -> register_loan cid id cs !! cid' = cs !! cid'.
Proof.
  intros Hne. unfold register_loan. rewrite lookup_alter_ne by done.
  destruct (cs !! cid); [done|]. by rewrite lookup_insert_ne.
Qed.

(** Every answer of [lend_money] is of one of two kinds: the file is left
    alone and no loan is approved, or a loan is stored under the current
    value of the counter. *)
Lemma lend_money_cases (req : LendRequest) (f : file) :
  (snd (lend_money req f) = f /\ approved (fst (lend_money req f)) = None) \/
  (exists cid a y r loan total emi,
      req = lend cid a y r /\ customer_id loan = cid /\
      payments loan = [] /\
      lend_money req f =
        (inr (LoanApproved (str (next_loan_id (dataset_of f)))
                "Loan approved successfully." total emi, 201),
         Some (with_loan (dataset_of f) loan))).
Proof.
  destruct req as [cid [a|] [y|] [r|]]; try (by left).
  unfold lend_money, bind, lift, ret.
  cbn [lend_customer_id lend_amount lend_years lend_rate py_float py_int exn_bind].
  rewrite truediv_hundred. cbn [exn_bind].
  destruct (negb _) eqn:Hvalid; [by left|].
  destruct cid as [cid|]; [|done].
  destruct (PyFloat.of_int y) as [e|yf]; [by left|].
  destruct (PyFloat.of_int (y * 12)) as [e|y12]; [by left|].
  cbn [exn_bind]. destruct (PyFloat.truediv _ y12) as [e|emi]; [by left|].
  rewrite load_data_eq. right.
  eexists cid, a, y, r, (new_loan cid a y _ _ _ emi), _, _. by repeat split.
Qed.

Lemma make_payment_cases (req : PaymentRequest) (now : string) (f : file) :
  (snd (make_payment req now f) = f /\ approved (fst (make_payment req now f)) = None) \/
  (exists loan_id amt loan p,
      req = pay loan_id amt /\
      loans (dataset_of f) !! loan_id = Some loan /\
      approved (fst (make_payment req now f)) = None /\
      snd (make_payment req now f) = Some (with_payment (dataset_of f) loan_id loan p)).
Proof.
  destruct req as [[lid|] [amt|]]; try (by left).
  unfold make_payment, bind, lift, ret.
  cbn [pay_loan_id pay_amount py_float from_option id].
  destruct (negb (truthy (Some lid)) || PyFloat.leb amt PyFloat.zero); [by left|].
  rewrite load_data_eq. cbv beta iota.
  destruct (loans (dataset_of f) !! lid) as [loan|] eqn:Hloan; [|by left].
  destruct (get_loan_details lid (dataset_of f)) as [e|[det|]]; try (by left).
  cbv beta iota.
  destruct (PyFloat.leb (d_balance_amount det) PyFloat.zero); [by left|].
  right. by eexists lid, amt, loan, _.
Qed.

Lemma get_ledger_file (loan_id : string) (f : file) :
  snd (get_ledger loan_id f) = f /\ approved (fst (get_ledger loan_id f)) = None.
Proof.
  unfold get_ledger, bind, lift, ret. rewrite load_data_eq. cbv beta iota.
  destruct (loans (dataset_of f) !! loan_id); [|done].
  by destruct (get_loan_details loan_id (dataset_of f)) as [e|[det|]].
Qed.

Lemma get_account_overview_file (cid : string) (f : file) :
  snd (get_account_overview cid f) = f /\
  approved (fst (get_account_overview cid f)) = None.
Proof.
  unfold get_account_overview, bind, lift, ret. rewrite load_data_eq. cbv beta iota.
  destruct (customers (dataset_of f) !! cid); [|done].
  by destruct (overview_loop _ _ _).
Qed.

(** * The invariant *)

Lemma consistent_empty : consistent empty_data.
Proof. split; simpl; try done; intros *; by rewrite lookup_empty. Qed.

Lemma consistent_fresh (d : Dataset) :
  consistent d -> loans d !! str (next_loan_id d) = None.
Proof.
  intros Hd. destruct (loans d !! str (next_loan_id d)) as [loan|] eqn:H; [|done].
  destruct (loans_numbered d Hd _ _ H) as (n & Hn%str_inj & ?). lia.
Qed.

Lemma consistent_listed_below (d : Dataset) (cid : string) (c : Customer) (n : Z) :
  consistent d -> customers d !! cid = Some c -> str n ∈ loan_ids c ->
  n < next_loan_id d.
Proof.
  intros Hd Hc Hn.
  destruct (listed_loans d Hd _ _ _ Hc Hn) as (loan & Hloan & _).
  destruct (loans_numbered d Hd _ _ Hloan) as (m & Hm%str_inj & ?). lia.
Qed.

Lemma consistent_with_loan (d : Dataset) (loan : Loan) :
  consistent d -> consistent (with_loan d loan).
Proof.
  intros Hd. pose proof (consistent_fresh d Hd) as Hfresh.
  set (id := str (next_loan_id d)) in *. set (cid := customer_id loan).
  split; unfold with_loan; fold id cid; cbn [loans customers next_loan_id].
  - pose proof (counter_positive d Hd). lia.
  - intros id' loan' [[<- <-]|[Hne H]]%lookup_insert_Some.
    + exists (next_loan_id d). pose proof (counter_positive d Hd). split; [done|lia].
    + destruct (loans_numbered d Hd _ _ H) as (n & -> & ?). exists n. split; [done|lia].
  - intros id' loan' [[<- <-]|[Hne H]]%lookup_insert_Some.
    + fold cid. rewrite register_loan_lookup. eexists. split; [done|].
      cbn. apply elem_of_app. right. by apply list_elem_of_singleton.
    + destruct (loans_owned d Hd _ _ H) as (c & Hc & Hin).
      destruct (decide (cid = customer_id loan')) as [Heq|Hneq].
      * rewrite <- Heq in *. rewrite register_loan_lookup, Hc. eexists. split; [done|].
        cbn. apply elem_of_app. by left.
      * rewrite register_loan_lookup_ne by done. eauto.
  - intros cid' c' id' Hc' Hin.
    destruct (decide (cid = cid')) as [<-|Hneq].
    + rewrite register_loan_lookup in Hc'. injection Hc' as <-. cbn in Hin.
      apply elem_of_app in Hin as [Hin|Hin%list_elem_of_singleton]; [|subst id'].
      * destruct (customers d !! cid) as [c|] eqn:Hc; [|by apply elem_of_nil in Hin].
        destruct (listed_loans d Hd _ _ _ Hc Hin) as (loan' & Hl & Hown).
        exists loan'. split; [|done]. rewrite lookup_insert_ne; [done|]. congruence.
      * exists loan. by rewrite lookup_insert_eq.
    + rewrite register_loan_lookup_ne in Hc' by done.
      destruct (listed_loans d Hd _ _ _ Hc' Hin) as (loan' & Hl & Hown).
      exists loan'. split; [|done]. rewrite lookup_insert_ne; [done|]. congruence.
  - intros cid' c' Hc'.
    destruct (decide (cid = cid')) as [<-|Hneq].
    + rewrite register_loan_lookup in Hc'. injection Hc' as <-. cbn.
      destruct (customers d !! cid) as [c|] eqn:Hc; cbn.
      * destruct (listed_in_order d Hd _ _ Hc) as (ns & Hns & Hsorted).
        exists (ns ++ [next_loan_id d]). split; [by rewrite fmap_app, Hns|].
        apply StronglySorted_app_2; [|done|repeat constructor].
        intros n m Hn Hm%list_elem_of_singleton. subst m.
        apply (consistent_listed_below d cid c); [done..|].
        rewrite Hns. by apply list_elem_of_fmap_2.
      * exists [next_loan_id d]. split; [done|repeat constructor].
    + rewrite register_loan_lookup_ne in Hc' by done.
      by apply (listed_in_order d Hd cid').
Qed.

Lemma consistent_with_payment (d : Dataset) (id : string) (loan : Loan) (p : Payment) :
  consistent d -> loans d !! id = Some loan -> consistent (with_payment d id loan p).
Proof.
  intros Hd Hloan.
  split; unfold with_payment; cbn [loans customers next_loan_id].
  - apply (counter_positive d Hd).
  - intros id' loan' [[<- <-]|[Hne H]]%lookup_insert_Some;
      by eapply (loans_numbered d Hd).
  - intros id' loan' [[<- <-]|[Hne H]]%lookup_insert_Some.
    + apply (loans_owned d Hd _ _ Hloan).
    + apply (loans_owned d Hd _ _ H).
  - intros cid c id' Hc Hin.
    destruct (listed_loans d Hd _ _ _ Hc Hin) as (loan' & Hl & Hown).
    destruct (decide (id = id')) as [<-|Hne].
    + exists (add_payment loan p). rewrite lookup_insert_eq. split; [done|].
      cbn. congruence.
    + exists loan'. by rewrite lookup_insert_ne.
  - apply (listed_in_order d Hd).
Qed.

Lemma serve_consistent (r : request) (f : file) :
  consistent (dataset_of f) -> consistent (dataset_of (snd (serve r f))).
Proof.
  intros Hf. destruct r as [req|req now|loan_id|cid]; cbn [serve].
  - destruct (lend_money_cases req f) as [[-> _]|(cid & a & y & rt & loan & t & e & _ & _ & _ & ->)];
      [done|]. by apply consistent_with_loan.
  - destruct (make_payment_cases req now f)
      as [[-> _]|(id & amt & loan & p & _ & Hloan & _ & ->)]; [done|].
    by apply consistent_with_payment.
  - by destruct (get_ledger_file loan_id f) as [-> _].
  - by destruct (get_account_overview_file cid f) as [-> _].
Qed.

Lemma run_consistent (rs : list request) (f : file) :
  consistent (dataset_of f) -> consistent (dataset_of (snd (run rs f))).
Proof.
  revert f. induction rs as [|r rs IH]; intros f Hf; [done|].
  cbn [run]. pose proof (serve_consistent r f Hf) as Hf'.
  destruct (serve r f) as [a f']. specialize (IH f' Hf').
  by destruct (run rs f') as [answers f''].
Qed.

Lemma after_consistent (rs : list request) : consistent (dataset_of (after rs)).
Proof. apply run_consistent, consistent_empty. Qed.

(** * Sequences of requests *)

(** The effect of one request on the counter, and the id it hands out. *)
Lemma serve_counter (r : request) (f : file) :
  match approved (fst (serve r f)) with
  | Some id =>
      id = str (next_loan_id (dataset_of f)) /\
      next_loan_id (dataset_of (snd (serve r f))) = next_loan_id (dataset_of f) + 1
  | None =>
      next_loan_id (dataset_of (snd (serve r f))) = next_loan_id (dataset_of f)
  end.
Proof.
  destruct r as [req|req now|loan_id|cid]; cbn [serve].
  - destruct (lend_money_cases req f) as [[-> ->]|(cid & a & y & rt & loan & t & e & _ & _ & _ & ->)];
      done.
  - destruct (make_payment_cases req now f)
      as [[-> ->]|(id & amt & loan & p & _ & _ & -> & ->)]; done.
  - by destruct (get_ledger_file loan_id f) as [-> ->].
  - by destruct (get_account_overview_file cid f) as [-> ->].
Qed.

Lemma run_issued (rs : list request) (f : file) :
  let ids := issued (fst (run rs f)) in
  let k := Z.of_nat (length ids) in
  ids = str <$> seqZ (next_loan_id (dataset_of f)) k /\
  next_loan_id (dataset_of (snd (run rs f))) = next_loan_id (dataset_of f) + k.
Proof.
  revert f. induction rs as [|r rs IH]; intros f.
  { cbv zeta. cbn [run fst snd issued omap list_omap length]. split; [done|lia]. }
  cbn [run]. pose proof (serve_counter r f) as Hr.
  destruct (serve r f) as [a f']. specialize (IH f').
  destruct (run rs f') as [answers f'']. cbn [fst snd] in *.
  cbv zeta in IH. destruct IH as [IH1 IH2].
  unfold issued in *. cbn [omap list_omap].
  destruct (approved a) as [id|].
  - destruct Hr as [-> Hr]. cbv zeta. cbn [length]. split.
    + rewrite Nat2Z.inj_succ, seqZ_cons by lia. cbn [fmap list_fmap]. f_equal.
      rewrite Z.pred_succ. rewrite IH1 at 1. by rewrite Hr, Z.add_1_r.
    + rewrite IH2, Hr. lia.
  - cbv zeta. rewrite <- Hr. by split.
Qed.

(** C4: on a fresh system the counter starts at 1; a request that approves
    a loan hands out the decimal numeral of the counter and adds one to it,
    any other request leaves the counter alone.  So the loan ids handed out
    by any sequence of requests are "1", "2", ..., without repetition,
    whoever the customers are, and the counter ends one above their number. *)
Theorem loan_ids_count_up (rs : list request) :
  let ids := issued (fst (run rs None)) in
  let k := Z.of_nat (length ids) in
  next_loan_id (dataset_of None) = 1 /\
  ids = str <$> seqZ 1 k /\
  NoDup ids /\
  next_loan_id (dataset_of (after rs)) = 1 + k /\
  forall (r : request) (f : file),
    match approved (fst (serve r f)) with
    | Some id =>
        id = str (next_loan_id (dataset_of f)) /\
        next_loan_id (dataset_of (snd (serve r f))) = next_loan_id (dataset_of f) + 1
    | None =>
        next_loan_id (dataset_of (snd (serve r f))) = next_loan_id (dataset_of f)
    end.
Proof.
  intros ids k. destruct (run_issued rs None) as [H1 H2].
  fold ids k in H1, H2. cbn in H1, H2.
  repeat split; try done.
  - rewrite H1. apply NoDup_fmap_2; [|apply NoDup_seqZ]. intros n m. apply str_inj.
  - apply serve_counter.
Qed.

Lemma same_terms_refl (l : Loan) : same_terms l l.
Proof. by repeat split. Qed.

Lemma same_terms_add_payment (l : Loan) (p : Payment) : same_terms l (add_payment l p).
Proof. by repeat split. Qed.

(** What one request can do to the records that are already stored. *)
Lemma serve_records (r : request) (f : file) :
  consistent (dataset_of f) ->
  let d := dataset_of f in
  let d' := dataset_of (snd (serve r f)) in
  (forall id loan,
      loans d !! id = Some loan ->
      exists loan',
        loans d' !! id = Some loan' /\ same_terms loan loan' /\
        (loan' = loan \/
         exists amt now p, r = PostPayment (pay id amt) now /\ loan' = add_payment loan p)) /\
  (forall cid c,
      customers d !! cid = Some c ->
      exists c',
        customers d' !! cid = Some c' /\
        (c' = c \/
         exists a y rt, r = PostLend (lend cid a y rt) /\
                        loan_ids c' = loan_ids c ++ [str (next_loan_id d)])).
Proof.
  intros Hf d d'.
  assert (Hsame : snd (serve r f) = f ->
    (forall id loan, loans d !! id = Some loan ->
       exists loan', loans d' !! id = Some loan' /\ same_terms loan loan' /\
         (loan' = loan \/ exists amt now p,
             r = PostPayment (pay id amt) now /\ loan' = add_payment loan p)) /\
    (forall cid c, customers d !! cid = Some c ->
       exists c', customers d' !! cid = Some c' /\
         (c' = c \/ exists a y rt, r = PostLend (lend cid a y rt) /\
             loan_ids c' = loan_ids c ++ [str (next_loan_id d)]))).
  { intros Heq. subst d d'. rewrite Heq.
    split; [intros id loan H; exists loan|intros cid c H; exists c];
      eauto using same_terms_refl. }
  destruct r as [req|req now|loan_id|cid]; cbn [serve] in *.
  - destruct (lend_money_cases req f)
      as [[Heq _]|(cid & a & y & rt & loan & t & e & -> & Hcid & _ & Heq)]; [auto|].
    subst d d'. rewrite Heq. cbn [snd dataset_of from_option id].
    unfold with_loan. cbn [loans customers]. split.
    + intros id' loan' H. exists loan'. split; [|eauto using same_terms_refl].
      rewrite lookup_insert_ne; [done|].
      intros <-. by rewrite (consistent_fresh _ Hf) in H.
    + intros cid' c H. destruct (decide (cid = cid')) as [<-|Hne].
      * rewrite Hcid, register_loan_lookup, H. eexists. split; [done|].
        right. by exists a, y, rt.
      * exists c. rewrite Hcid, register_loan_lookup_ne by done. auto.
  - destruct (make_payment_cases req now f)
      as [[Heq _]|(lid & amt & loan & p & -> & Hloan & _ & Heq)]; [auto|].
    subst d d'. rewrite Heq. cbn [snd dataset_of from_option id].
    unfold with_payment. cbn [loans customers]. split.
    + intros id' loan' H. destruct (decide (lid = id')) as [<-|Hne].
      * rewrite Hloan in H. injection H as <-.
        exists (add_payment loan p). rewrite lookup_insert_eq.
        split; [done|]. split; [apply same_terms_add_payment|].
        right. by exists amt, now, p.
      * exists loan'. rewrite lookup_insert_ne by done.
        eauto using same_terms_refl.
    + intros cid c H. exists c. auto.
  - by destruct (get_ledger_file loan_id f) as [Heq _]; auto.
  - by destruct (get_account_overview_file cid f) as [Heq _]; auto.
Qed.

(** C9, as amended: in the datasets that the service builds, a request
    leaves every stored loan under its id with the same customer,
    principal, years, rate, total interest, total amount and EMI; the record
    changes only when the request is a payment on that very loan, which
    appends one payment to it.  A customer's list of loan ids changes only
    when the request is a loan for that customer, which appends the new
    loan id to the list. *)
Theorem stored_records_only_grow (rs : list request) (r : request) :
  let d := dataset_of (after rs) in
  let d' := dataset_of (snd (serve r (after rs))) in
  (forall id loan,
      loans d !! id = Some loan ->
      exists loan',
        loans d' !! id = Some loan' /\ same_terms loan loan' /\
        (loan' = loan \/
         exists amt now p, r = PostPayment (pay id amt) now /\ loan' = add_payment loan p)) /\
  (forall cid c,
      customers d !! cid = Some c ->
      exists c',
        customers d' !! cid = Some c' /\
        (c' = c \/
         exists a y rt, r = PostLend (lend cid a y rt) /\
                        loan_ids c' = loan_ids c ++ [str (next_loan_id d)])).
Proof. apply serve_records, after_consistent. Qed.

(** After a payment of 110 the loan of the example keeps its total of 1320. *)
Lemma stored_records_only_grow_witness :
  let rs := [PostLend (lend "c1" (PyFloat.dec 1200 0) 1 (PyFloat.dec 10 0))] in
  let r := PostPayment (pay "1" (PyFloat.dec 110 0)) t1 in
  exists loan',
    loans (dataset_of (snd (serve r (after rs)))) !! "1"%string = Some loan' /\
    total_amount loan' = PyFloat.dec 1320 0.
Proof.
  intros rs r.
  destruct (stored_records_only_grow rs r) as [H _]. cbv zeta in H.
  eassert (Hl : loans (dataset_of (after rs)) !! "1"%string = Some _)
    by (vm_compute; reflexivity).
  destruct (H _ _ Hl) as (loan' & Hl' & Hterms & _).
  exists loan'. split; [done|].
  destruct Hterms as (_ & _ & _ & _ & _ & -> & _). vm_compute. reflexivity.
Defined.

(** C9 as stated fails for the customers' lists: a second loan for the
    same customer changes the list of loan ids stored for that customer. *)
Lemma lend_money_extends_loan_ids :
  let r := PostLend (lend "c1" (PyFloat.dec 1200 0) 1 (PyFloat.dec 10 0)) in
  customers (dataset_of (after [r])) !! "c1"%string = Some {| loan_ids := ["1"%string] |} /\
  customers (dataset_of (snd (serve r (after [r])))) !! "c1"%string =
    Some {| loan_ids := ["1"%string; "2"%string] |}.
Proof. cbv zeta. compute_each. Qed.

(** * The account overview *)

(** The loop over loan ids that all name stored loans: either every
    ledger computation succeeds and each id contributes its summary, in
    order, or the first failing computation ends the loop. *)
Lemma overview_loop_spec (data : Dataset) (ids : list string) :
  forall acc : list LoanSummary,
  (forall id, id ∈ ids -> is_Some (loans data !! id)) ->
  match overview_loop data ids acc with
  | inr l =>
      exists l', l = acc ++ l' /\ s_loan_id <$> l' = ids /\
                 Forall (summary_of data) l'
  | inl e => exists id, id ∈ ids /\ get_loan_details id data = inl e
  end.
Proof.
  induction ids as [|id ids IH]; intros acc Hall; cbn [overview_loop].
  { exists []. by rewrite app_nil_r. }
  destruct (Hall id ltac:(by left)) as [loan Hloan].
  pose proof (get_loan_details_found data id loan Hloan) as Hfound.
  destruct (get_loan_details id data) as [e|[det|]] eqn:Hdet; cbn [exn_bind];
    [|clear Hfound|done].
  - exists id. split; [by left|done].
  - specialize (IH (acc ++ [loan_summary id det])
                  ltac:(intros id' Hin; apply Hall; by right)).
    destruct (overview_loop data ids _) as [e|l].
    + destruct IH as (id' & Hin & He). exists id'. split; [by right|done].
    + destruct IH as (l' & -> & Hids & Hsum).
      exists (loan_summary id det :: l'). rewrite <- app_assoc.
      split; [done|]. split; [by rewrite fmap_cons, Hids|].
      constructor; [by exists det|done].
Qed.

Lemma get_account_overview_eval (cid : string) (f : file) (c : Customer) :
  customers (dataset_of f) !! cid = Some c ->
  get_account_overview cid f =
    (match overview_loop (dataset_of f) (loan_ids c) [] with
     | inl e => inl e
     | inr l => inr (Overview cid l, 200)
     end, f).
Proof.
  intros Hc. unfold get_account_overview, bind, lift, ret.
  rewrite load_data_eq. cbv beta iota. rewrite Hc.
  by destruct (overview_loop _ _ _).
Qed.

Lemma get_account_overview_unknown (cid : string) (f : file) :
  customers (dataset_of f) !! cid = None ->
  get_account_overview cid f = (inr (Error "Customer not found.", 404), f).
Proof.
  intros Hc. unfold get_account_overview, bind, lift, ret.
  rewrite load_data_eq. cbv beta iota. by rewrite Hc.
Qed.

(** The overview of a customer whose listed ids all name stored loans. *)
Lemma get_account_overview_listed (cid : string) (f : file) (c : Customer) :
  customers (dataset_of f) !! cid = Some c ->
  (forall id, id ∈ loan_ids c -> is_Some (loans (dataset_of f) !! id)) ->
  match fst (get_account_overview cid f) with
  | inr (Overview cid' l, status) =>
      cid' = cid /\ status = 200 /\ s_loan_id <$> l = loan_ids c /\
      Forall (summary_of (dataset_of f)) l
  | inr _ => False
  | inl e => exists id, id ∈ loan_ids c /\ get_loan_details id (dataset_of f) = inl e
  end.
Proof.
  intros Hc Hall. rewrite (get_account_overview_eval cid f c Hc). cbn [fst].
  pose proof (overview_loop_spec (dataset_of f) (loan_ids c) [] Hall) as H.
  destruct (overview_loop _ _ _) as [e|l]; [done|].
  destruct H as (l' & -> & Hids & Hsum). by rewrite app_nil_l.
Qed.

Lemma consistent_listed (d : Dataset) (cid : string) (c : Customer) :
  consistent d -> customers d !! cid = Some c ->
  forall id, id ∈ loan_ids c -> is_Some (loans d !! id).
Proof.
  intros Hd Hc id Hin.
  destruct (listed_loans d Hd _ _ _ Hc Hin) as (loan & -> & _). by eexists.
Qed.

(** C8, as amended: on the datasets that the service builds,
    [get_account_overview] answers 404 "Customer not found." exactly when
    the customer is not in the dataset, and never writes the file.  For a
    customer that exists, whose loan ids are listed by increasing loan
    number, the request either fails with the exception that the ledger
    calculator raised on one of the listed loans, or is answered 200 with
    exactly one summary per listed loan, in the order of the list, each
    summary being the ledger's details of its loan. *)
Theorem get_account_overview_spec (rs : list request) (cid : string) :
  let f := after rs in
  let d := dataset_of f in
  (fst (get_account_overview cid f) = inr (Error "Customer not found.", 404)
   <-> customers d !! cid = None) /\
  snd (get_account_overview cid f) = f /\
  forall c, customers d !! cid = Some c ->
    (exists ns, loan_ids c = str <$> ns /\ StronglySorted Z.lt ns) /\
    match fst (get_account_overview cid f) with
    | inr (Overview cid' l, status) =>
        cid' = cid /\ status = 200 /\ s_loan_id <$> l = loan_ids c /\
        Forall (summary_of d) l
    | inr _ => False
    | inl e => exists id, id ∈ loan_ids c /\ get_loan_details id d = inl e
    end.
Proof.
  intros f d. pose proof (after_consistent rs) as Hd. fold f d in Hd.
  split; [|split].
  - split.
    + intros Hresp. destruct (customers d !! cid) as [c|] eqn:Hc; [|done].
      pose proof (get_account_overview_listed cid f c Hc
                    (consistent_listed d cid c Hd Hc)) as H.
      by rewrite Hresp in H.
    + intros Hc. by rewrite get_account_overview_unknown.
  - apply get_account_overview_file.
  - intros c Hc. split; [by apply (listed_in_order d Hd cid)|].
    apply get_account_overview_listed; [done|]. apply (consistent_listed d cid c Hd Hc).
Qed.

(** The overview of the example's customer lists the one loan "1". *)
Lemma get_account_overview_spec_witness :
  let rs := [PostLend (lend "c1" (PyFloat.dec 1200 0) 1 (PyFloat.dec 10 0))] in
  exists l, fst (get_account_overview "c1" (after rs)) = inr (Overview "c1" l, 200) /\
            s_loan_id <$> l = ["1"%string].
Proof.
  intros rs.
  destruct (get_account_overview_spec rs "c1") as (_ & _ & H). cbv zeta in H.
  destruct (H {| loan_ids := ["1"%string] |} ltac:(vm_compute; reflexivity)) as [_ Hov].
  eassert (Hr : fst (get_account_overview "c1" (after rs)) = inr (Overview _ _, _))
    by (vm_compute; reflexivity).
  rewrite Hr in Hov. destruct Hov as (_ & _ & Hids & _).
  eexists. split; [exact Hr|exact Hids].
Defined.

(** C8 as stated fails: a loan whose total overflows to infinity is stored
    for customer "c1"; the customer exists, yet the overview request fails
    with the [ValueError] of [math.ceil] instead of returning summaries. *)
Lemma get_account_overview_raises :
  let f := after [PostLend (lend "c1" (PyFloat.dec (10 ^ 308) 0) 10 (PyFloat.dec 100 0))] in
  customers (dataset_of f) !! "c1"%string = Some {| loan_ids := ["1"%string] |} /\
  (total_amount <$> loans (dataset_of f) !! "1"%string) = Some (S754_infinity false) /\
  get_account_overview "c1" f = (inl ValueError, f).
Proof. cbv zeta. compute_each. Qed.

(** C10: in every dataset that [lend] and [pay] requests (and the two
    queries) build from the empty one, each loan id listed for a customer
    is a key of the loans, each loan's customer is a key of the customers,
    and an overview that is answered lists every loan id of the customer:
    none is skipped. *)
Theorem referential_integrity (rs : list request) :
  let f := after rs in
  let d := dataset_of f in
  (forall cid c id,
      customers d !! cid = Some c -> id ∈ loan_ids c -> is_Some (loans d !! id)) /\
  (forall id loan,
      loans d !! id = Some loan -> is_Some (customers d !! customer_id loan)) /\
  (forall cid c l status,
      customers d !! cid = Some c ->
      fst (get_account_overview cid f) = inr (Overview cid l, status) ->
      s_loan_id <$> l = loan_ids c).
Proof.
  intros f d. pose proof (after_consistent rs) as Hd. fold f d in Hd.
  split; [|split].
  - intros cid c id Hc. apply (consistent_listed d cid c Hd Hc).
  - intros id loan Hloan.
    destruct (loans_owned d Hd _ _ Hloan) as (c & -> & _). by eexists.
  - intros cid c l status Hc Hresp.
    pose proof (get_account_overview_listed cid f c Hc
                  (consistent_listed d cid c Hd Hc)) as H.
    rewrite Hresp in H. by destruct H as (_ & _ & ? & _).
Qed.

(** After two loans for "c1" and one for "c2", the loan "3" listed for "c1" is stored. *)
Lemma referential_integrity_witness :
  let rs := [PostLend (lend "c1" (PyFloat.dec 1200 0) 1 (PyFloat.dec 10 0));
             PostLend (lend "c2" (PyFloat.dec 500 0) 2 (PyFloat.dec 5 0));
             PostLend (lend "c1" (PyFloat.dec 300 0) 1 (PyFloat.dec 12 0))] in
  is_Some (loans (dataset_of (after rs)) !! "3"%string).
Proof.
  intros rs.
  destruct (referential_integrity rs) as (H & _ & _).
  apply (H "c1"%string {| loan_ids := ["1"%string; "3"%string] |}).
  - vm_compute. reflexivity.
  - apply elem_of_cons. right. apply elem_of_cons. by left.
Defined.

(** * What a request can write *)

Lemma truthy_nonempty (s : string) : truthy (Some s) = true -> s <> "".
Proof. simpl. by destruct (String.eqb_spec s ""). Qed.

(** [lend_money] either leaves the file alone, and then its answer is a
    failure, or it was given a request that passes the validation and it
    saves the dataset extended by the loan computed from that request. *)
Lemma lend_money_step (req : LendRequest) (f : file) :
  (snd (lend_money req f) = f /\ failed (fst (lend_money req f)) /\
   approved (fst (lend_money req f)) = None) \/
  (exists cid a y r yf y12,
      req = lend cid a y r /\ accepted cid a y r yf y12 /\
      lend_money req f =
        (inr (LoanApproved (str (next_loan_id (dataset_of f)))
                "Loan approved successfully."
                (total_amount (originated_loan cid a y r yf y12))
                (emi_amount (originated_loan cid a y r yf y12)), 201),
         Some (with_loan (dataset_of f) (originated_loan cid a y r yf y12)))).
Proof.
  destruct req as [cid [a|] [y|] [r|]]; try (by left).
  unfold lend_money, bind, lift, ret.
  cbn [lend_customer_id lend_amount lend_years lend_rate py_float py_int exn_bind].
  rewrite truediv_hundred. cbn [exn_bind].
  destruct cid as [cid|]; [|by left].
  destruct (truthy (Some cid)) eqn:Hcid; [|by left].
  destruct (PyFloat.ltb PyFloat.zero a) eqn:Ha; [|by left].
  destruct (0 <? y) eqn:Hy; [|by left].
  destruct (PyFloat.ltb PyFloat.zero (PyFloat.div r hundred)) eqn:Hr; [|by left].
  cbn [andb negb from_option id].
  destruct (PyFloat.of_int y) as [e|yf] eqn:Hyf; [by left|].
  destruct (PyFloat.of_int (y * 12)) as [e|y12] eqn:Hy12; [by left|].
  cbn [exn_bind]. unfold PyFloat.truediv.
  rewrite (of_int_pos (y * 12) y12) by (done || lia).
  rewrite load_data_eq. right.
  exists cid, a, y, r, yf, y12. split; [done|]. split; [|done].
  repeat split; try done; [by apply truthy_nonempty|lia].
Qed.

(** [make_payment] either leaves the file alone, or it found the loan and
    saves the dataset in which one payment was appended to it; the amount
    that it rounds and stores is not [<= 0]. *)
Lemma make_payment_step (req : PaymentRequest) (now : string) (f : file) :
  (snd (make_payment req now f) = f /\
   recorded (fst (make_payment req now f)) = None /\
   (failed (fst (make_payment req now f)) \/
    fst (make_payment req now f) = inr (Message "This loan is already fully paid.", 200))) \/
  (exists loan_id amt loan a,
      req = pay loan_id amt /\ loan_id <> "" /\
      loans (dataset_of f) !! loan_id = Some loan /\
      PyFloat.leb a PyFloat.zero = false /\
      make_payment req now f =
        (inr (PaymentRecorded "Payment recorded successfully." loan_id a, 200),
         Some (with_payment (dataset_of f) loan_id loan
                 {| amount := PyFloat.round2 a; date := now |}))).
Proof.
  destruct req as [[lid|] [amt|]]; try (left; split; [done|split; [done|by left]]).
  unfold make_payment, bind, lift, ret.
  cbn [pay_loan_id pay_amount py_float from_option id].
  destruct (truthy (Some lid)) eqn:Hlid; [|left; split; [done|split; [done|by left]]].
  destruct (PyFloat.leb amt PyFloat.zero) eqn:Hamt;
    [left; split; [done|split; [done|by left]]|].
  cbn [negb orb]. rewrite load_data_eq. cbv beta iota.
  destruct (loans (dataset_of f) !! lid) as [loan|] eqn:Hloan;
    [|left; split; [done|split; [done|by left]]].
  destruct (get_loan_details lid (dataset_of f)) as [e|[det|]];
    try (left; split; [done|split; [done|by left]]).
  cbv beta iota.
  destruct (PyFloat.leb (d_balance_amount det) PyFloat.zero) eqn:Hbal;
    [left; split; [done|split; [done|by right]]|].
  right. eexists lid, amt, loan, _.
  split; [done|]. split; [by apply truthy_nonempty|]. split; [done|].
  split; [|reflexivity].
  by destruct (PyFloat.ltb (d_balance_amount det) amt).
Qed.

Lemma get_ledger_step (loan_id : string) (f : file) :
  snd (get_ledger loan_id f) = f.
Proof. apply get_ledger_file. Qed.

(** A property of datasets that holds for the empty one and is kept when
    an accepted loan is stored and when a payment is appended holds after
    every sequence of requests. *)
Lemma after_invariant (P : Dataset -> Prop) :
  P empty_data ->
  (forall d cid a y r yf y12,
      consistent d -> P d -> accepted cid a y r yf y12 ->
      P (with_loan d (originated_loan cid a y r yf y12))) ->
  (forall d loan_id loan a now,
      consistent d -> P d -> loans d !! loan_id = Some loan ->
      PyFloat.leb a PyFloat.zero = false ->
      P (with_payment d loan_id loan {| amount := PyFloat.round2 a; date := now |})) ->
  forall rs, P (dataset_of (after rs)).
Proof.
  intros Hempty Hlend Hpay rs. unfold after.
  assert (Hgen : forall f, consistent (dataset_of f) -> P (dataset_of f) ->
                           P (dataset_of (snd (run rs f)))).
  { induction rs as [|r rs IH]; intros f Hc HP; [done|].
    cbn [run]. pose proof (serve_consistent r f Hc) as Hc'.
    assert (HP' : P (dataset_of (snd (serve r f)))).
    { destruct r as [req|req now|loan_id|cid]; cbn [serve].
      - destruct (lend_money_step req f)
          as [(-> & _)|(cid & a & y & rt & yf & y12 & _ & Hacc & ->)]; [done|].
        by apply Hlend.
      - destruct (make_payment_step req now f)
          as [[-> _]|(lid & amt & loan & a & _ & _ & Hloan & Ha & ->)]; [done|].
        by apply Hpay.
      - by rewrite get_ledger_step.
      - by destruct (get_account_overview_file cid f) as [-> _]. }
    destruct (serve r f) as [a f']. specialize (IH f' Hc' HP').
    by destruct (run rs f') as [answers f'']. }
  apply (Hgen None); [apply consistent_empty|done].
Qed.

(** * Answers and writes *)

(** X1: [lend_money] approves a loan only for a request that carries all
    four fields and passes the validation (customer id not empty, amount,
    years and rate/100 positive, no overflow converting the years); the
    answer then has status 201, names the counter's numeral as loan id,
    reports the stored total and EMI, and the saved dataset is the old one
    extended by that loan. *)
Theorem lend_money_approved (req : LendRequest) (f f' : file) (loan_id msg : string)
    (total emi : float) (status : Z) :
  lend_money req f = (inr (LoanApproved loan_id msg total emi, status), f') ->
  exists cid a y r yf y12,
    req = lend cid a y r /\ accepted cid a y r yf y12 /\
    loan_id = str (next_loan_id (dataset_of f)) /\
    status = 201 /\
    total = total_amount (originated_loan cid a y r yf y12) /\
    emi = emi_amount (originated_loan cid a y r yf y12) /\
    f' = Some (with_loan (dataset_of f) (originated_loan cid a y r yf y12)).
Proof.
  intros H.
  destruct (lend_money_step req f)
    as [(_ & _ & Hnone)|(cid & a & y & r & yf & y12 & Hreq & Hacc & Heq)].
  - by rewrite H in Hnone.
  - rewrite H in Heq. injection Heq as -> -> -> -> -> ->.
    by exists cid, a, y, r, yf, y12.
Qed.

Lemma lend_money_approved_witness :
  exists cid a y r yf y12,
    lend "c1" (PyFloat.dec 1200 0) 1 (PyFloat.dec 10 0) = lend cid a y r /\
    accepted cid a y r yf y12.
Proof.
  eassert (H : lend_money (lend "c1" (PyFloat.dec 1200 0) 1 (PyFloat.dec 10 0)) None =
               (inr (LoanApproved _ _ _ _, _), _)) by (vm_compute; reflexivity).
  destruct (lend_money_approved _ _ _ _ _ _ _ _ H)
    as (cid & a & y & r & yf & y12 & Hreq & Hacc & _).
  exists cid, a, y, r, yf, y12. split; [exact Hreq|exact Hacc].
Defined.

(** X2: a request that is answered with a failure (an exception, or a
    status of 400 or more) writes nothing: the data file is byte for byte
    what it was, and a missing file stays missing. *)
Theorem failed_request_writes_nothing (r : request) (f : file) :
  failed (fst (serve r f)) -> snd (serve r f) = f.
Proof.
  destruct r as [req|req now|loan_id|cid]; cbn [serve].
  - destruct (lend_money_step req f)
      as [(-> & _)|(cid & a & y & rt & yf & y12 & _ & _ & ->)]; [done|].
    cbn. lia.
  - destruct (make_payment_step req now f)
      as [[-> _]|(lid & amt & loan & a & _ & _ & _ & _ & ->)]; [done|].
    cbn. lia.
  - intros _. apply get_ledger_step.
  - intros _. apply get_account_overview_file.
Qed.

Lemma failed_request_writes_nothing_witness :
  snd (serve (PostPayment (pay "7" (PyFloat.dec 50 0)) t1) None) = None.
Proof.
  apply (failed_request_writes_nothing (PostPayment (pay "7" (PyFloat.dec 50 0)) t1) None).
  vm_compute. discriminate.
Defined.

(** X3: the validation of [make_payment] comes before any look at the
    data.  With an [amount] in the body, a missing or empty [loan_id] or an
    amount [<= 0] is answered 400 whatever the file holds; a request that
    passes for a loan id that is not stored is answered 404; a body without
    [amount] raises [TypeError].  None of them writes. *)
Theorem make_payment_errors (loan_id : option string) (amt : float) (now : string)
    (f : file) :
  (truthy loan_id = false \/ PyFloat.leb amt PyFloat.zero = true ->
   make_payment {| pay_loan_id := loan_id; pay_amount := Some amt |} now f =
     (inr (Error "Loan ID and a positive amount are required.", 400), f)) /\
  (forall lid, loan_id = Some lid -> lid <> "" ->
     PyFloat.leb amt PyFloat.zero = false ->
     loans (dataset_of f) !! lid = None ->
     make_payment {| pay_loan_id := loan_id; pay_amount := Some amt |} now f =
       (inr (Error "Loan not found.", 404), f)) /\
  make_payment {| pay_loan_id := loan_id; pay_amount := None |} now f =
    (inl TypeError, f).
Proof.
  split; [|split; [|done]].
  - intros H. unfold make_payment, bind, lift, ret.
    cbn [pay_loan_id pay_amount py_float].
    destruct H as [-> | ->]; [done|]. by rewrite orb_true_r.
  - intros lid -> Hlid Hamt Hnone. unfold make_payment, bind, lift, ret.
    cbn [pay_loan_id pay_amount py_float from_option id].
    rewrite truthy_Some, Hamt by done. cbn [negb orb].
    rewrite load_data_eq. cbv beta iota. by rewrite Hnone.
Qed.

Lemma make_payment_errors_witness :
  make_payment (pay "" (PyFloat.dec 50 0)) t1 None =
    (inr (Error "Loan ID and a positive amount are required.", 400), None) /\
  make_payment (pay "7" (PyFloat.dec 50 0)) t1 None =
    (inr (Error "Loan not found.", 404), None).
Proof.
  destruct (make_payment_errors (Some ""%string) (PyFloat.dec 50 0) t1 None) as (H1 & _ & _).
  destruct (make_payment_errors (Some "7"%string) (PyFloat.dec 50 0) t1 None) as (_ & H2 & _).
  split.
  - apply H1. by left.
  - apply (H2 "7"%string); [reflexivity|discriminate|reflexivity|reflexivity].
Defined.

(** * The ledger of a loan *)

Lemma get_loan_details_fields (data : Dataset) (loan_id : string) (det : Details) :
  get_loan_details loan_id data = inr (Some det) ->
  exists loan,
    loans data !! loan_id = Some loan /\
    d_principal det = principal loan /\
    d_total_amount det = total_amount loan /\
    d_emi_amount det = emi_amount loan /\
    d_total_interest det = total_interest loan /\
    d_amount_paid det = PyFloat.round2 (PyFloat.sum (map amount (payments loan))) /\
    d_balance_amount det =
      PyFloat.round2 (PyFloat.sub (total_amount loan)
                        (PyFloat.sum (map amount (payments loan)))) /\
    0 <= d_emis_left det.
Proof.
  unfold get_loan_details.
  destruct (loans data !! loan_id) as [loan|]; [|done].
  destruct (if PyFloat.ltb _ _ then _ else _) as [e|n]; cbn [exn_bind]; [done|].
  intros [= <-]. exists loan. cbn. repeat split; lia.
Qed.

(** The details of a loan depend on nothing but its own record. *)
Lemma get_loan_details_ext (data data' : Dataset) (loan_id : string) :
  loans data' !! loan_id = loans data !! loan_id ->
  get_loan_details loan_id data' = get_loan_details loan_id data.
Proof. intros H. unfold get_loan_details. by rewrite H. Qed.

Lemma get_ledger_eval (loan_id : string) (f : file) :
  get_ledger loan_id f =
    (match loans (dataset_of f) !! loan_id with
     | None => inr (Error "Loan not found.", 404)
     | Some loan =>
         match get_loan_details loan_id (dataset_of f) with
         | inl e => inl e
         | inr None => inr (Error "Loan not found.", 404)
         | inr (Some det) =>
             inr (Ledger loan_id (customer_id loan) (d_balance_amount det)
                    (d_emi_amount det) (d_emis_left det) (payments loan), 200)
         end
     end, f).
Proof.
  unfold get_ledger, bind, lift, ret. rewrite load_data_eq. cbv beta iota.
  destruct (loans (dataset_of f) !! loan_id); [|done].
  by destruct (get_loan_details loan_id (dataset_of f)) as [e|[det|]].
Qed.

(** What a ledger answer shows of the stored loan. *)
Lemma get_ledger_answer (loan_id : string) (f : file) (lid cid : string)
    (b emi : float) (n : Z) (txs : list Payment) (status : Z) :
  fst (get_ledger loan_id f) = inr (Ledger lid cid b emi n txs, status) ->
  exists loan,
    loans (dataset_of f) !! loan_id = Some loan /\
    lid = loan_id /\ cid = customer_id loan /\ emi = emi_amount loan /\
    txs = payments loan /\
    b = PyFloat.round2 (PyFloat.sub (total_amount loan)
                          (PyFloat.sum (map amount (payments loan)))) /\
    0 <= n /\ status = 200.
Proof.
  rewrite get_ledger_eval. cbn [fst].
  destruct (loans (dataset_of f) !! loan_id) as [loan|] eqn:Hloan; [|done].
  destruct (get_loan_details loan_id (dataset_of f)) as [e|[det|]] eqn:Hdet; try done.
  destruct (get_loan_details_fields _ loan_id det Hdet)
    as (loan' & Hl & _ & _ & Hemi & _ & _ & Hbal & Hn).
  rewrite Hloan in Hl. injection Hl as <-.
  intros [= <- <- <- <- <- <- <-]. exists loan. by repeat split.
Qed.

(** X4: [get_ledger] never writes the data file.  It answers 404 "Loan
    not found." exactly when the loan id is not stored, and fails with an
    exception exactly when the ledger calculator raises it.  When it
    answers with a ledger, the status is 200 and the ledger shows the loan
    id asked for, the loan's customer, its stored EMI, its complete payment
    list in stored order, a balance of [round(total_amount - sum(amounts), 2)]
    and a number of instalments left that is not negative. *)
Theorem get_ledger_spec (loan_id : string) (f : file) :
  let d := dataset_of f in
  snd (get_ledger loan_id f) = f /\
  (fst (get_ledger loan_id f) = inr (Error "Loan not found.", 404)
   <-> loans d !! loan_id = None) /\
  (forall e, fst (get_ledger loan_id f) = inl e <-> get_loan_details loan_id d = inl e) /\
  (forall lid cid b emi n txs status,
      fst (get_ledger loan_id f) = inr (Ledger lid cid b emi n txs, status) ->
      exists loan,
        loans d !! loan_id = Some loan /\
        lid = loan_id /\ cid = customer_id loan /\ emi = emi_amount loan /\
        txs = payments loan /\
        b = PyFloat.round2 (PyFloat.sub (total_amount loan)
                              (PyFloat.sum (map amount (payments loan)))) /\
        0 <= n /\ status = 200).
Proof.
  intros d. split; [apply get_ledger_step|].
  split; [|split; [|apply get_ledger_answer]]; rewrite get_ledger_eval; cbn [fst]; fold d.
  - destruct (loans d !! loan_id) as [loan|] eqn:Hloan; [|done].
    pose proof (get_loan_details_found d loan_id loan Hloan) as Hfound.
    by destruct (get_loan_details loan_id d) as [e|[det|]].
  - intros e. destruct (loans d !! loan_id) as [loan|] eqn:Hloan.
    + pose proof (get_loan_details_found d loan_id loan Hloan) as Hfound.
      destruct (get_loan_details loan_id d) as [e'|[det|]]; [|done..].
      split; intros [= ->]; reflexivity.
    + by rewrite (get_loan_details_None d loan_id Hloan).
Qed.

Lemma get_ledger_spec_witness :
  let f := after [PostLend (lend "c1" (PyFloat.dec 1200 0) 1 (PyFloat.dec 10 0));
                  PostPayment (pay "1" (PyFloat.dec 110 0)) t1] in
  exists b n, fst (get_ledger "1" f) =
    inr (Ledger "1" "c1" b (PyFloat.dec 110 0) n
           [ {| amount := PyFloat.dec 110 0; date := t1 |} ], 200) /\ 0 <= n.
Proof.
  intros f.
  destruct (get_ledger_spec "1" f) as (_ & _ & _ & H). cbv zeta in H.
  eassert (Hr : fst (get_ledger "1" f) = inr (Ledger _ _ _ _ _ _, _))
    by (vm_compute; reflexivity).
  destruct (H _ _ _ _ _ _ _ Hr) as (loan & _ & _ & _ & _ & _ & _ & Hn & _).
  do 2 eexists. split; [exact Hr|exact Hn].
Defined.

(** X5: a payment that was recorded is the last transaction of the
    loan's ledger.  When [make_payment] confirms [amount_paid = a] for a
    loan, any ledger that [get_ledger] then returns for it lists the loan's
    earlier payments followed by one of [round(a, 2)] stamped with the time
    of the request, and shows the balance computed over that longer list. *)
Theorem payment_appears_in_ledger (req : PaymentRequest) (now : string) (f f' : file)
    (msg loan_id : string) (a : float) (status : Z) :
  make_payment req now f = (inr (PaymentRecorded msg loan_id a, status), f') ->
  exists loan,
    loans (dataset_of f) !! loan_id = Some loan /\
    forall lid cid b emi n txs status',
      fst (get_ledger loan_id f') = inr (Ledger lid cid b emi n txs, status') ->
      txs = payments loan ++ [ {| amount := PyFloat.round2 a; date := now |} ] /\
      cid = customer_id loan /\ emi = emi_amount loan /\
      b = PyFloat.round2
            (PyFloat.sub (total_amount loan)
               (PyFloat.sum (map amount (payments loan) ++ [PyFloat.round2 a]))).
Proof.
  intros H.
  destruct (make_payment_step req now f)
    as [(_ & Hnone & _)|(lid & amt & loan & a' & _ & _ & Hloan & _ & Heq)].
  { by rewrite H in Hnone. }
  rewrite H in Heq. injection Heq as -> -> -> -> ->.
  exists loan. split; [done|].
  intros lid' cid b emi n txs status' Hr.
  destruct (get_ledger_answer _ _ _ _ _ _ _ _ _ Hr)
    as (loan' & Hl' & _ & -> & -> & -> & -> & _).
  cbn in Hl'. rewrite lookup_insert_eq in Hl'. injection Hl' as <-.
  cbn [add_payment payments customer_id emi_amount total_amount].
  by rewrite map_app.
Qed.

Lemma payment_appears_in_ledger_witness :
  let f := after [PostLend (lend "c1" (PyFloat.dec 1200 0) 1 (PyFloat.dec 10 0))] in
  exists loan, loans (dataset_of f) !! "1"%string = Some loan.
Proof.
  intros f.
  eassert (H : make_payment (pay "1" (PyFloat.dec 110 0)) t1 f =
               (inr (PaymentRecorded _ _ _, _), _)) by (vm_compute; reflexivity).
  destruct (payment_appears_in_ledger _ _ _ _ _ _ _ _ H) as (loan & Hloan & _).
  exists loan. exact Hloan.
Defined.

(** * What holds in every dataset the service builds *)

Lemma has_sign_false_not_negative (x : float) :
  has_sign false x -> PyFloat.ltb x PyFloat.zero = false.
Proof. destruct x as [s|s| |s m e]; simpl; try done; by intros ->. Qed.

(** Rounding to two decimals never turns an amount that is not [<= 0]
    into a negative one. *)
Lemma round2_not_negative (a : float) :
  PyFloat.leb a PyFloat.zero = false ->
  PyFloat.ltb (PyFloat.round2 a) PyFloat.zero = false.
Proof.
  destruct a as [s|[]| |[] m e]; try done.
  intros _. unfold PyFloat.round2.
  destruct (PyFloat.hundredths m e) as [|n|n]; try done.
  apply has_sign_false_not_negative.
  unfold PyFloat.div, SFdiv.
  destruct (SFdiv_core_binary _ _ _ _ _ _) as [[mz ez] lz].
  apply (binary_round_aux_sign false).
Qed.

(** X6: no stored payment is negative.  In every dataset that the service
    builds, each payment in each loan's history has an amount that is not
    below zero. *)
Theorem stored_payments_not_negative (rs : list request) (loan_id : string)
    (loan : Loan) (p : Payment) :
  loans (dataset_of (after rs)) !! loan_id = Some loan ->
  p ∈ payments loan ->
  PyFloat.ltb (amount p) PyFloat.zero = false.
Proof.
  revert loan_id loan p.
  apply (after_invariant (fun d => forall loan_id loan p,
           loans d !! loan_id = Some loan -> p ∈ payments loan ->
           PyFloat.ltb (amount p) PyFloat.zero = false)).
  - intros loan_id loan p H. cbn [empty_data loans] in H. by rewrite lookup_empty in H.
  - intros d cid a y r yf y12 Hd IH Hacc loan_id loan p.
    unfold with_loan. cbn [loans].
    intros [[_ <-]|[_ H]]%lookup_insert_Some; [|by apply (IH loan_id)].
    cbn. by intros ?%elem_of_nil.
  - intros d lid loan a now Hd IH Hloan Ha loan_id loan' p.
    unfold with_payment. cbn [loans].
    intros [[_ <-]|[_ H]]%lookup_insert_Some; [|by apply (IH loan_id)].
    cbn [add_payment payments].
    intros [Hin|Hin%list_elem_of_singleton]%elem_of_app.
    + by apply (IH lid loan).
    + subst p. cbn [amount]. by apply round2_not_negative.
Qed.

Lemma stored_payments_not_negative_witness :
  PyFloat.ltb (PyFloat.dec 110 0) PyFloat.zero = false.
Proof.
  eassert (H : loans (dataset_of (after
                 [PostLend (lend "c1" (PyFloat.dec 1200 0) 1 (PyFloat.dec 10 0));
                  PostPayment (pay "1" (PyFloat.dec 110 0)) t1])) !! "1"%string = Some _)
    by (vm_compute; reflexivity).
  apply (stored_payments_not_negative _ _ _
           {| amount := PyFloat.dec 110 0; date := t1 |} H).
  cbn [payments]. apply list_elem_of_singleton. reflexivity.
Defined.

Lemma originated_loan_terms (cid : string) (a : float) (y : Z) (r yf y12 : float) :
  accepted cid a y r yf y12 -> terms_consistent (originated_loan cid a y r yf y12).
Proof.
  intros (Hcid & Ha & Hy & Hr & Hyf & Hy12).
  exists yf, y12. unfold originated_loan, new_loan. cbn. by repeat split.
Qed.

(** X7: the stored terms of a loan always follow from its own principal,
    years and rate.  In every dataset that the service builds, each loan has
    a customer id that is not empty, a positive principal, positive years
    and a positive rate, and its [total_interest], [total_amount] and
    [emi_amount] are the two-decimal roundings of [principal * years * rate],
    [principal + principal * years * rate] and that total divided by
    [years * 12]; no payment changes this. *)
Theorem stored_terms_consistent (rs : list request) (loan_id : string) (loan : Loan) :
  loans (dataset_of (after rs)) !! loan_id = Some loan -> terms_consistent loan.
Proof.
  revert loan_id loan.
  apply (after_invariant (fun d => forall loan_id loan,
           loans d !! loan_id = Some loan -> terms_consistent loan)).
  - intros loan_id loan H. cbn [empty_data loans] in H. by rewrite lookup_empty in H.
  - intros d cid a y r yf y12 Hd IH Hacc loan_id loan.
    unfold with_loan. cbn [loans].
    intros [[_ <-]|[_ H]]%lookup_insert_Some; [|by apply (IH loan_id)].
    by apply originated_loan_terms.
  - intros d lid loan a now Hd IH Hloan Ha loan_id loan'.
    unfold with_payment. cbn [loans].
    intros [[_ <-]|[_ H]]%lookup_insert_Some; [|by apply (IH loan_id)].
    apply (IH lid loan Hloan).
Qed.

Lemma stored_terms_consistent_witness :
  exists loan,
    loans (dataset_of (after [PostLend (lend "c1" (PyFloat.dec 1200 0) 1 (PyFloat.dec 10 0));
                              PostPayment (pay "1" (PyFloat.dec 110 0)) t1]))
      !! "1"%string = Some loan /\ terms_consistent loan.
Proof.
  eassert (H : loans (dataset_of (after
                 [PostLend (lend "c1" (PyFloat.dec 1200 0) 1 (PyFloat.dec 10 0));
                  PostPayment (pay "1" (PyFloat.dec 110 0)) t1])) !! "1"%string = Some _)
    by (vm_compute; reflexivity).
  eexists. split; [exact H|].
  exact (stored_terms_consistent _ _ _ H).
Defined.

(** * Loans, customers and the counter *)

(** X8: the stored loans are exactly the numbers handed out.  In every
    dataset that the service builds, a string is a key of [loans] exactly
    when it is the decimal numeral of an integer from 1 up to, but not
    including, [next_loan_id]: no loan is ever removed, and no key is
    anything but a number already handed out. *)
Theorem loan_keys_are_numbers (rs : list request) (id : string) :
  let d := dataset_of (after rs) in
  is_Some (loans d !! id) <-> exists n, id = str n /\ 1 <= n < next_loan_id d.
Proof.
  intros d. split.
  - intros [loan Hloan]. apply (loans_numbered d (after_consistent rs) id loan Hloan).
  - intros (n & -> & Hn). revert n Hn. subst d.
    apply (after_invariant (fun d => forall n, 1 <= n < next_loan_id d ->
                                               is_Some (loans d !! str n))).
    + intros n. cbn. lia.
    + intros d cid a y r yf y12 Hd IH Hacc n. unfold with_loan.
      cbn [loans next_loan_id]. intros Hn.
      apply lookup_insert_is_Some.
      destruct (decide (n = next_loan_id d)) as [->|Hne]; [by left|].
      right. split; [|apply IH; lia]. intros Heq%str_inj. lia.
    + intros d lid loan a now Hd IH Hloan Ha n. unfold with_payment.
      cbn [loans next_loan_id]. intros Hn.
      apply lookup_insert_is_Some'. right. by apply IH.
Qed.

(** X9: a customer's list is exactly that customer's loans.  In every
    dataset that the service builds, each customer record lists at least
    one loan id, lists none twice, and lists an id exactly when a loan is
    stored under it whose [customer_id] is that customer. *)
Theorem customer_lists_own_loans (rs : list request) (cid : string) (c : Customer) :
  let d := dataset_of (after rs) in
  customers d !! cid = Some c ->
  loan_ids c <> [] /\
  NoDup (loan_ids c) /\
  forall id, id ∈ loan_ids c <->
             exists loan, loans d !! id = Some loan /\ customer_id loan = cid.
Proof.
  intros d Hc. pose proof (after_consistent rs) as Hd. fold d in Hd.
  split; [|split].
  - revert cid c Hc. subst d.
    apply (after_invariant (fun d => forall cid c,
             customers d !! cid = Some c -> loan_ids c <> [])).
    + intros cid c H. cbn [empty_data customers] in H. by rewrite lookup_empty in H.
    + intros d cid a y r yf y12 _ IH Hacc cid' c'. unfold with_loan.
      cbn [customers]. destruct (decide (cid = cid')) as [<-|Hne].
      * unfold originated_loan, new_loan. cbn [customer_id].
        rewrite register_loan_lookup. intros [= <-]. cbn.
        by destruct (from_option loan_ids [] (customers d !! cid)).
      * unfold originated_loan, new_loan. cbn [customer_id].
        rewrite register_loan_lookup_ne by done. apply IH.
    + intros d lid loan a now _ IH _ _ cid' c'. apply IH.
  - destruct (listed_in_order d Hd cid c Hc) as (ns & -> & Hsorted).
    apply NoDup_fmap_2; [intros n m; apply str_inj|].
    clear Hc. induction Hsorted as [|n ns Hs IH Hall]; constructor; [|done].
    intros Hin. rewrite Forall_forall in Hall. specialize (Hall n Hin). lia.
  - intros id. split.
    + intros Hin. apply (listed_loans d Hd cid c id Hc Hin).
    + intros (loan & Hloan & <-).
      destruct (loans_owned d Hd id loan Hloan) as (c' & Hc' & Hin).
      rewrite Hc in Hc'. by injection Hc' as <-.
Qed.

Lemma customer_lists_own_loans_witness :
  NoDup ["1"%string; "3"%string].
Proof.
  destruct (customer_lists_own_loans
              [PostLend (lend "c1" (PyFloat.dec 1200 0) 1 (PyFloat.dec 10 0));
               PostLend (lend "c2" (PyFloat.dec 500 0) 2 (PyFloat.dec 5 0));
               PostLend (lend "c1" (PyFloat.dec 300 0) 1 (PyFloat.dec 12 0))]
              "c1" {| loan_ids := ["1"%string; "3"%string] |}
              ltac:(vm_compute; reflexivity)) as (_ & H & _).
  exact H.
Defined.

Lemma run_app (rs rs' : list request) (f : file) :
  run (rs ++ rs') f =
    (fst (run rs f) ++ fst (run rs' (snd (run rs f))), snd (run rs' (snd (run rs f)))).
Proof.
  revert f. induction rs as [|r rs IH]; intros f.
  - cbn. by destruct (run rs' f).
  - cbn [app run]. destruct (serve r f) as [a f']. rewrite IH.
    by destruct (run rs f') as [answers f''].
Qed.

Lemma serve_file (r : request) (f : file) :
  (snd (serve r f) = f /\ approved (fst (serve r f)) = None) \/
  (is_Some (snd (serve r f)) /\ (is_Some f \/ is_Some (approved (fst (serve r f))))).
Proof.
  destruct r as [req|req now|loan_id|cid]; cbn [serve].
  - destruct (lend_money_cases req f)
      as [H|(cid & a & y & rt & loan & t & e & _ & _ & _ & ->)]; [by left|].
    right. cbn. split; [by eexists|]. right. by eexists.
  - destruct (make_payment_cases req now f)
      as [H|(lid & amt & loan & p & _ & Hloan & _ & ->)]; [by left|].
    right. split; [by eexists|]. left.
    destruct f as [d|]; [by eexists|].
    cbn in Hloan. by rewrite lookup_empty in Hloan.
  - left. apply get_ledger_file.
  - left. apply get_account_overview_file.
Qed.

(** X10: the data file comes to exist with the first approved loan.  After
    any sequence of requests on a system without a data file, the file
    exists exactly when at least one of the answers approved a loan: failed
    requests, queries and payments never create it. *)
Theorem file_exists_iff_loan_approved (rs : list request) :
  is_Some (after rs) <-> issued (fst (run rs None)) <> [].
Proof.
  unfold after.
  assert (Hgen : forall f, is_Some (snd (run rs f)) <->
                           is_Some f \/ issued (fst (run rs f)) <> []).
  { induction rs as [|r rs IH]; intros f.
    - cbn. split; [by left|]. by intros [H|H].
    - cbn [run]. pose proof (serve_file r f) as Hstep.
      destruct (serve r f) as [a f'].
      specialize (IH f'). destruct (run rs f') as [answers f''].
      cbn [fst snd] in *. unfold issued in *. cbn [omap list_omap].
      rewrite IH. destruct Hstep as [[-> ->]|[Hf' Hor]]; [done|].
      split.
      + intros _. destruct Hor as [H|[id ->]]; [by left|by right].
      + intros _. by left. }
  rewrite Hgen. split; [|by right]. by intros [H|H].
Qed.

(** * Histories *)

Lemma same_terms_trans (l1 l2 l3 : Loan) :
  same_terms l1 l2 -> same_terms l2 l3 -> same_terms l1 l3.
Proof. unfold same_terms. intros H1 H2. repeat split; by etrans; [apply H2|apply H1]. Qed.

Lemma run_records (rs : list request) :
  forall f, consistent (dataset_of f) ->
  let d := dataset_of f in
  let d' := dataset_of (snd (run rs f)) in
  next_loan_id d <= next_loan_id d' /\
  (forall id loan,
      loans d !! id = Some loan ->
      exists loan' ps,
        loans d' !! id = Some loan' /\ same_terms loan loan' /\
        payments loan' = payments loan ++ ps) /\
  (forall cid c,
      customers d !! cid = Some c ->
      exists c' ids,
        customers d' !! cid = Some c' /\ loan_ids c' = loan_ids c ++ ids).
Proof.
  induction rs as [|r rs IH]; intros f Hf; cbv zeta.
  { cbn [run snd]. split; [lia|]. split.
    - intros id loan H. exists loan, []. rewrite app_nil_r.
      eauto using same_terms_refl.
    - intros cid c H. exists c, []. by rewrite app_nil_r. }
  cbn [run]. pose proof (serve_consistent r f Hf) as Hf'.
  pose proof (serve_records r f Hf) as [Hl Hc]. pose proof (serve_counter r f) as Hn.
  destruct (serve r f) as [a f']. cbn [fst snd] in *.
  specialize (IH f' Hf'). cbv zeta in IH. destruct IH as (IHn & IHl & IHc).
  destruct (run rs f') as [answers f'']. cbn [snd] in *.
  split; [|split].
  - destruct (approved a) as [id|]; [destruct Hn as [_ Hn]|]; lia.
  - intros id loan H.
    destruct (Hl id loan H) as (loan1 & H1 & Ht1 & Hp1).
    destruct (IHl id loan1 H1) as (loan2 & ps & H2 & Ht2 & Hp2).
    destruct Hp1 as [->|(amt & now & p & _ & ->)].
    + by exists loan2, ps.
    + exists loan2, (p :: ps). split; [done|].
      split; [by apply (same_terms_trans _ _ _ Ht1)|].
      rewrite Hp2. cbn [add_payment payments]. by rewrite <- app_assoc.
  - intros cid c H.
    destruct (Hc cid c H) as (c1 & H1 & Hc1).
    destruct (IHc cid c1 H1) as (c2 & ids & H2 & Hids).
    destruct Hc1 as [->|(a0 & y & rt & _ & Heq)].
    + by exists c2, ids.
    + exists c2, ([str (next_loan_id (dataset_of f))] ++ ids).
      split; [done|]. by rewrite Hids, Heq, <- app_assoc.
Qed.

(** X11: what is stored is only ever extended, over any number of
    requests.  Whatever further requests follow a history, the counter
    does not go down, every loan stored so far is still stored under its id
    with the same terms and with its payment list extended at the end, and
    every customer stored so far still is, with the list of loan ids
    extended at the end. *)
Theorem history_is_append_only (rs rs' : list request) :
  let d := dataset_of (after rs) in
  let d' := dataset_of (after (rs ++ rs')) in
  next_loan_id d <= next_loan_id d' /\
  (forall id loan,
      loans d !! id = Some loan ->
      exists loan' ps,
        loans d' !! id = Some loan' /\ same_terms loan loan' /\
        payments loan' = payments loan ++ ps) /\
  (forall cid c,
      customers d !! cid = Some c ->
      exists c' ids,
        customers d' !! cid = Some c' /\ loan_ids c' = loan_ids c ++ ids).
Proof.
  unfold after. rewrite run_app. cbn [snd].
  apply (run_records rs' (snd (run rs None))), after_consistent.
Qed.

Lemma history_is_append_only_witness :
  let rs := [PostLend (lend "c1" (PyFloat.dec 1200 0) 1 (PyFloat.dec 10 0))] in
  let rs' := [PostPayment (pay "1" (PyFloat.dec 110 0)) t1;
              PostLend (lend "c1" (PyFloat.dec 300 0) 1 (PyFloat.dec 12 0))] in
  exists c' ids,
    customers (dataset_of (after (rs ++ rs'))) !! "c1"%string = Some c' /\
    loan_ids c' = ["1"%string] ++ ids.
Proof.
  intros rs rs'.
  destruct (history_is_append_only rs rs') as (_ & _ & H). cbv zeta in H.
  exact (H "c1"%string {| loan_ids := ["1"%string] |} ltac:(vm_compute; reflexivity)).
Defined.

(** X12: the ledger of a loan changes only by a payment on that loan.  In
    a dataset that the service built, a request that is not a payment
    request for a stored loan leaves that loan's computed details, and the
    whole answer of [get_ledger] for it, exactly as they were: lending,
    paying other loans and querying do not touch it. *)
Theorem ledger_changes_only_by_payment (rs : list request) (r : request)
    (loan_id : string) :
  let f := after rs in
  let f' := snd (serve r f) in
  is_Some (loans (dataset_of f) !! loan_id) ->
  (forall amt now, r <> PostPayment (pay loan_id amt) now) ->
  get_loan_details loan_id (dataset_of f') = get_loan_details loan_id (dataset_of f) /\
  fst (get_ledger loan_id f') = fst (get_ledger loan_id f).
Proof.
  intros f f' [loan Hloan] Hr.
  destruct (serve_records r f (after_consistent rs)) as [Hl _].
  destruct (Hl loan_id loan Hloan) as (loan' & Hloan' & _ & [->|(amt & now & p & -> & _)]);
    [|by destruct (Hr amt now)].
  fold f' in Hloan'.
  assert (Heq : loans (dataset_of f') !! loan_id = loans (dataset_of f) !! loan_id)
    by (by rewrite Hloan, Hloan').
  split; [by apply get_loan_details_ext|].
  rewrite !get_ledger_eval. cbn [fst].
  by rewrite Heq, (get_loan_details_ext _ _ _ Heq).
Qed.

Lemma ledger_changes_only_by_payment_witness :
  let rs := [PostLend (lend "c1" (PyFloat.dec 1200 0) 1 (PyFloat.dec 10 0));
             PostLend (lend "c2" (PyFloat.dec 500 0) 2 (PyFloat.dec 5 0))] in
  let r := PostPayment (pay "2" (PyFloat.dec 50 0)) t1 in
  fst (get_ledger "1" (snd (serve r (after rs)))) = fst (get_ledger "1" (after rs)).
Proof.
  intros rs r.
  apply (ledger_changes_only_by_payment rs r "1").
  - vm_compute. by eexists.
  - intros amt now. discriminate.
Defined.

(** * The overview on an arbitrary data file *)

(** The loop of the overview on any list of ids: ids that are not stored
    contribute nothing. *)
Lemma overview_loop_filter (data : Dataset) (ids : list string) :
  forall acc : list LoanSummary,
  match overview_loop data ids acc with
  | inr l =>
      exists l', l = acc ++ l' /\
                 s_loan_id <$> l' = filter (fun id => is_Some (loans data !! id)) ids /\
                 Forall (summary_of data) l'
  | inl e => exists id, id ∈ ids /\ get_loan_details id data = inl e
  end.
Proof.
  induction ids as [|id ids IH]; intros acc; cbn [overview_loop].
  { exists []. by rewrite app_nil_r. }
  destruct (loans data !! id) as [loan|] eqn:Hloan.
  - pose proof (get_loan_details_found data id loan Hloan) as Hfound.
    destruct (get_loan_details id data) as [e|[det|]] eqn:Hdet; cbn [exn_bind];
      [|clear Hfound|done].
    + exists id. split; [by left|done].
    + specialize (IH (acc ++ [loan_summary id det])).
      destruct (overview_loop data ids _) as [e|l].
      * destruct IH as (id' & Hin & He). exists id'. split; [by right|done].
      * destruct IH as (l' & -> & Hids & Hsum).
        exists (loan_summary id det :: l'). rewrite <- app_assoc.
        split; [done|]. split.
        -- rewrite filter_cons_True by (by rewrite Hloan).
           by rewrite fmap_cons, Hids.
        -- constructor; [by exists det|done].
  - rewrite (get_loan_details_None data id Hloan). cbn [exn_bind].
    specialize (IH acc). destruct (overview_loop data ids acc) as [e|l].
    + destruct IH as (id' & Hin & He). exists id'. split; [by right|done].
    + destruct IH as (l' & -> & Hids & Hsum). exists l'.
      split; [done|]. split; [|done].
      rewrite filter_cons_False; [done|]. rewrite Hloan. by intros [x Hx].
Qed.

(** X13: on any data file, also one that the service did not write
    itself, an overview that is answered lists, in the order of the
    customer's list, one summary for each listed loan id that is a key of
    [loans], and silently leaves out the listed ids that are not; each
    summary is the ledger's view of its loan.  The request fails only with
    an exception raised by the ledger calculator on a listed loan. *)
Theorem get_account_overview_skips_unknown (cid : string) (f : file) (c : Customer) :
  let d := dataset_of f in
  customers d !! cid = Some c ->
  match fst (get_account_overview cid f) with
  | inr (Overview cid' l, status) =>
      cid' = cid /\ status = 200 /\
      s_loan_id <$> l = filter (fun id => is_Some (loans d !! id)) (loan_ids c) /\
      Forall (summary_of d) l
  | inr _ => False
  | inl e => exists id, id ∈ loan_ids c /\ get_loan_details id d = inl e
  end.
Proof.
  intros d Hc. rewrite (get_account_overview_eval cid f c Hc). cbn [fst].
  pose proof (overview_loop_filter d (loan_ids c) []) as H. fold d.
  destruct (overview_loop d (loan_ids c) []) as [e|l]; [done|].
  destruct H as (l' & -> & Hids & Hsum). by rewrite app_nil_l.
Qed.

(** A data file in which customer "c1" lists the ids "1" and "9" while
    only loan "1" is stored: the overview shows loan "1" alone. *)
Lemma get_account_overview_skips_unknown_witness :
  let loan := new_loan "c1" (PyFloat.dec 1200 0) 1 (PyFloat.dec 1 1)
                (PyFloat.dec 120 0) (PyFloat.dec 1320 0) (PyFloat.dec 110 0) in
  let d := {| loans := {[ "1"%string := loan ]};
              customers := {[ "c1"%string := {| loan_ids := ["1"%string; "9"%string] |} ]};
              next_loan_id := 2 |} in
  exists l, fst (get_account_overview "c1" (Some d)) = inr (Overview "c1" l, 200) /\
            s_loan_id <$> l = ["1"%string].
Proof.
  intros loan d.
  pose proof (get_account_overview_skips_unknown "c1" (Some d)
                {| loan_ids := ["1"%string; "9"%string] |}
                ltac:(vm_compute; reflexivity)) as H.
  eassert (Hr : fst (get_account_overview "c1" (Some d)) = inr (Overview _ _, _))
    by (vm_compute; reflexivity).
  rewrite Hr in H. destruct H as (_ & _ & Hids & _).
  eexists. split; [exact Hr|]. rewrite Hids. vm_compute. reflexivity.
Defined.

(** * The cap on a payment *)

Lemma ltb_irrefl (x : float) : PyFloat.ltb x x = false.
Proof.
  destruct x as [s|[]| |[] m e]; try done; unfold PyFloat.ltb, SFltb; simpl;
    rewrite Z.compare_refl, Pos.compare_cont_refl; done.
Qed.

Lemma ltb_asym (x y : float) : PyFloat.ltb x y = true -> PyFloat.ltb y x = false.
Proof.
  unfold PyFloat.ltb, SFltb.
  destruct x as [s|[]| |[] m e]; destruct y as [s'|[]| |[] m' e']; simpl; try done.
  all: change (Pos.compare_cont Eq m m') with (m ?= m')%positive;
    change (Pos.compare_cont Eq m' m) with (m' ?= m)%positive;
    rewrite (Z.compare_antisym e e'), (Pos.compare_antisym m m');
    destruct (e ?= e'); simpl; try done;
    by destruct (m ?= m')%positive.
Qed.

(** X14: the amount applied is capped.  When [make_payment] confirms
    [amount_paid = a], [a] is either the amount of the request or the
    balance that the ledger calculator computed before the payment; it is
    above neither of the two, and it is not [<= 0]. *)
Theorem payment_is_capped (req : PaymentRequest) (now : string) (f f' : file)
    (msg loan_id : string) (a : float) (status : Z) :
  make_payment req now f = (inr (PaymentRecorded msg loan_id a, status), f') ->
  exists amt det,
    pay_amount req = Some amt /\
    get_loan_details loan_id (dataset_of f) = inr (Some det) /\
    (a = amt \/ a = d_balance_amount det) /\
    PyFloat.ltb amt a = false /\
    PyFloat.ltb (d_balance_amount det) a = false /\
    PyFloat.leb a PyFloat.zero = false.
Proof.
  destruct req as [[lid|] [amt|]]; try done.
  unfold make_payment, bind, lift, ret.
  cbn [pay_loan_id pay_amount py_float from_option id].
  destruct (truthy (Some lid)); [|done].
  destruct (PyFloat.leb amt PyFloat.zero) eqn:Hamt; [done|].
  cbn [negb orb]. rewrite load_data_eq. cbv beta iota.
  destruct (loans (dataset_of f) !! lid) as [loan|]; [|done].
  destruct (get_loan_details lid (dataset_of f)) as [e|[det|]] eqn:Hdet; try done.
  cbv beta iota.
  destruct (PyFloat.leb (d_balance_amount det) PyFloat.zero) eqn:Hbal; [done|].
  cbn. intros [= <- <- <- <- <-].
  exists amt, det. split; [done|]. split; [done|].
  destruct (PyFloat.ltb (d_balance_amount det) amt) eqn:Hlt.
  - repeat split; [by right|by apply ltb_asym|apply ltb_irrefl|done].
  - repeat split; [by left|apply ltb_irrefl|done|done].
Qed.

Lemma payment_is_capped_witness :
  let f := after [PostLend (lend "c1" (PyFloat.dec 1200 0) 1 (PyFloat.dec 10 0))] in
  exists a, recorded (fst (make_payment (pay "1" (PyFloat.dec 2000 0)) t1 f)) = Some ("1"%string, a) /\
            PyFloat.ltb (PyFloat.dec 2000 0) a = false.
Proof.
  intros f.
  eassert (H : make_payment (pay "1" (PyFloat.dec 2000 0)) t1 f =
               (inr (PaymentRecorded _ _ _, _), _)) by (vm_compute; reflexivity).
  destruct (payment_is_capped _ _ _ _ _ _ _ _ H) as (amt & det & Hamt & _ & _ & Hle & _).
  injection Hamt as <-.
  eexists. split; [rewrite H; reflexivity|exact Hle].
Defined.
